(** * Cloud Bigtable instance sample: the command-line tool of
      [samples/instances.js]

    The sample is a thin command-line program: a yargs dispatcher over five
    subcommands, each an [async] function that awaits a short chain of
    calls of the Bigtable administrative client and reports on the console.

    The embedding follows the source:
    - JavaScript values ([undefined], strings, numbers, arrays, object
      literals) are the type [Js.Val];
    - the body of an [async] function is a term of the monad [Async], whose
      nodes are the awaited client calls and the console writes, and whose
      leaves are the three ways a block of statements ends (falling through,
      [return], a thrown error); [try ... catch] is a combinator of that
      monad;
    - running a body against a remote service (any function giving each
      call its outcome) produces the trace of what the process did;
    - the handles of the client ([bigtable.instance(name)],
      [instance.cluster(name)]) are built without a remote call, but only
      from a name that is a string: [Samples] gives each function as it
      runs on the handles once built, [Entry] puts the building, which can
      throw, in front, and that is what the dispatcher calls. *)

From Stdlib Require Import String List ZArith Bool Setoid.
From ExtLib Require Import Structures.Monad.
Import ListNotations MonadNotation.
Local Open Scope string_scope.
Local Open Scope list_scope.
Local Open Scope monad_scope.
Set Warnings "-register-all".

(* ===================================================================== *)
(** ** JavaScript values *)
(* ===================================================================== *)

Module Js.

(** Object literals keep their properties in the order they are written. *)
Inductive Val : Type :=
| Undefined
| Str (s : string)
| Num (n : Z)
| Boolean (b : bool)
| Arr (items : list Val)
| Obj (props : list (string * Val)).

Fixpoint lookup (key : string) (props : list (string * Val)) : option Val :=
  match props with
  | [] => None
  | (k, v) :: rest => if String.eqb k key then Some v else lookup key rest
  end.

(** [o.key]: the property, or [undefined] when [o] has none of that name. *)
Definition prop (key : string) (o : Val) : Val :=
  match o with
  | Obj props => match lookup key props with Some v => v | None => Undefined end
  | _ => Undefined
  end.

(** [key in o]: whether the object literal sets the property at all. *)
Definition has (key : string) (o : Val) : bool :=
  match o with
  | Obj props => match lookup key props with Some _ => true | None => false end
  | _ => false
  end.

(** Truthiness, as an [if (v)] or [!v] sees a value. *)
Definition truthy (v : Val) : bool :=
  match v with
  | Undefined => false
  | Str s => negb (String.eqb s "")
  | Num n => negb (Z.eqb n 0)
  | Boolean b => b
  | Arr _ => true
  | Obj _ => true
  end.

End Js.

(* ===================================================================== *)
(** ** The administrative client *)
(* ===================================================================== *)

Module Client.

(** Modelled from the spec: the client library is not part of the sample.
    The handle on the instance of a given name, as [bigtable.instance(name)]
    returns it for a name that is a string; no remote call is made for it.
    What the constructor does with any other value is [bigtable_instance]
    below. *)
Record InstanceHandle : Type := instance { instance_arg : Js.Val }.

(** Modelled from the spec: the client library is not part of the sample.
    The handle on the cluster of a given name under an instance, as
    [instance.cluster(name)] returns it for a name that is a string; no
    remote call is made for it.  What the constructor does with any other
    value is [instance_cluster] below. *)
Record ClusterHandle : Type :=
  cluster { cluster_of : InstanceHandle; cluster_arg : Js.Val }.

(** The asynchronous methods of the client that the sample awaits. *)
Inductive Method : Type :=
| exists_ (i : InstanceHandle)                       (* instance.exists() *)
| create (i : InstanceHandle) (options : Js.Val)     (* instance.create(options) *)
| getInstances                                       (* bigtable.getInstances() *)
| get (i : InstanceHandle)                           (* instance.get() *)
| getClusters (i : InstanceHandle)                   (* instance.getClusters() *)
| createInstance (name options : Js.Val)             (* bigtable.createInstance(name, options) *)
| delete (i : InstanceHandle)                        (* instance.delete() *)
| createCluster (i : InstanceHandle) (name options : Js.Val)
                                                     (* instance.createCluster(name, options) *)
| cluster_delete (c : ClusterHandle).                (* cluster.delete() *)

(** What the sample reads of an instance or a cluster it is handed back. *)
Record Instance : Type := { name : Js.Val; metadata : Js.Val }.
Record Cluster : Type := { id : Js.Val }.

(** Modelled from the spec: the client library is not part of the sample;
    the types of what its calls resolve to are those of the collaborator
    contract ([exists() -> bool], [create(options) -> Instance],
    [get() -> Instance], [delete() -> void], [getClusters() -> [Cluster]],
    [getInstances() -> [Instance]], [createInstance(name, options) ->
    Instance], [createCluster(name, options) -> Cluster]).  The sample
    takes the first element of the resolved array; that element is the
    reply here. *)
Definition Reply (m : Method) : Type :=
  match m with
  | exists_ _ => bool
  | create _ _ => Instance
  | getInstances => list Instance
  | get _ => Instance
  | getClusters _ => list Cluster
  | createInstance _ _ => Instance
  | delete _ => unit
  | createCluster _ _ _ => Cluster
  | cluster_delete _ => unit
  end.

(** Whatever a rejected call throws. *)
Definition Err : Type := Js.Val.

(** The operation a call performs, whatever its arguments. *)
Inductive Operation : Type :=
| CheckInstanceExists | CreateInstance | ListInstances | GetInstance
| ListClusters | DeleteInstance | CreateCluster | DeleteCluster.

Definition operation (m : Method) : Operation :=
  match m with
  | exists_ _ => CheckInstanceExists
  | create _ _ => CreateInstance
  | getInstances => ListInstances
  | get _ => GetInstance
  | getClusters _ => ListClusters
  | createInstance _ _ => CreateInstance
  | delete _ => DeleteInstance
  | createCluster _ _ _ => CreateCluster
  | cluster_delete _ => DeleteCluster
  end.

End Client.

(* ===================================================================== *)
(** ** Console output *)
(* ===================================================================== *)

Module Console.

(** The parts of a string or template literal.  What the runtime and the
    client library fill in is kept as it is written. *)
Inductive Piece : Type :=
| Lit (s : string)                              (* literal text *)
| Sub (v : Js.Val)                              (* ${v} *)
| SubJSON (v : Js.Val)                          (* ${JSON.stringify(v)} *)
| SubName (i : Client.InstanceHandle)           (* ${instance.name} of a handle *)
| SubId (c : Client.ClusterHandle).             (* ${cluster.id} of a handle *)

(** Why yargs refuses a command line. *)
Inductive Complaint : Type :=
| ParseError (message : string)
| NotEnoughNonOptionArguments (got need : nat)
| MissingRequiredArguments (keys : list string)
| DidYouMean
| UnknownArguments (keys : list string).

(** One argument of [console.log] or [console.error]. *)
Inductive Arg : Type :=
| Text (pieces : list Piece)      (* a string *)
| Value (v : Js.Val)              (* a value, such as a caught error *)
| Usage                           (* the usage text yargs builds *)
| Version                         (* the version yargs prints *)
| Failure (c : Complaint).        (* the message of a yargs failure *)

End Console.

(* ===================================================================== *)
(** ** Bodies of async functions *)
(* ===================================================================== *)

Import Client Console.

(** How an awaited call settles. *)
Definition Settlement (m : Method) : Type := (Reply m + Err)%type.

Inductive Async (A : Type) : Type :=
| Done (a : A)                                   (* the statements fell through *)
| Return                                         (* [return;] *)
| Throw (err : Err)                              (* an error on its way up *)
| Await (m : Method) (k : Settlement m -> Async A)  (* suspended on a client call *)
| ConsoleLog (args : list Arg) (k : Async A)
| ConsoleError (args : list Arg) (k : Async A).

Arguments Done {A} a.
Arguments Return {A}.
Arguments Throw {A} err.
Arguments Await {A} m k.
Arguments ConsoleLog {A} args k.
Arguments ConsoleError {A} args k.

(** Sequencing: what follows runs only when the first part fell through. *)
Fixpoint Async_bind {A B : Type} (p : Async A) (f : A -> Async B) : Async B :=
  match p with
  | Done a => f a
  | Return => Return
  | Throw err => Throw err
  | Await m k => Await m (fun r => Async_bind (k r) f)
  | ConsoleLog args k => ConsoleLog args (Async_bind k f)
  | ConsoleError args k => ConsoleError args (Async_bind k f)
  end.

#[export] Instance Monad_Async : Monad Async := {| ret := @Done; bind := @Async_bind |}.

(** [await call]: the reply when the call resolves, a throw when it rejects. *)
Definition await (m : Method) : Async (Reply m) :=
  Await m (fun r => match r with inl v => Done v | inr err => Throw err end).

Definition console_log (args : list Arg) : Async unit := ConsoleLog args (Done tt).
Definition console_error (args : list Arg) : Async unit := ConsoleError args (Done tt).

(** [try { body } catch (err) { handler }] *)
Fixpoint try_catch {A : Type} (body : Async A) (handler : Err -> Async A) : Async A :=
  match body with
  | Done a => Done a
  | Return => Return
  | Throw err => handler err
  | Await m k => Await m (fun r => try_catch (k r) handler)
  | ConsoleLog args k => ConsoleLog args (try_catch k handler)
  | ConsoleError args k => ConsoleError args (try_catch k handler)
  end.

Notation "'try_' body 'catch_' handler" := (try_catch body handler)
  (at level 10, body at level 200, handler at level 9, only parsing).

(** [list.forEach(f)] *)
Fixpoint forEach {A : Type} (l : list A) (f : A -> Async unit) : Async unit :=
  match l with
  | [] => ret tt
  | x :: rest => f x ;; forEach rest f
  end.

(** Calling an async function: a [return] ends the call like falling off the
    end does; an error nothing caught is left to the caller. *)
Fixpoint async_function (body : Async unit) : Async unit :=
  match body with
  | Done _ => Done tt
  | Return => Done tt
  | Throw err => Throw err
  | Await m k => Await m (fun r => async_function (k r))
  | ConsoleLog args k => ConsoleLog args (async_function k)
  | ConsoleError args k => ConsoleError args (async_function k)
  end.

(** What a handle constructor throws at a name it cannot read; the message
    is the runtime's. *)
Definition TypeError : Err := Js.Obj [("name", Js.Str "TypeError")].

Definition is_name (v : Js.Val) : bool :=
  match v with
  | Js.Str _ => true
  | _ => false
  end.

(** Modelled from the spec: the client library is not part of the sample.
    [bigtable.instance(name)] makes no remote call.  It reads the name as
    a string: given one it returns the handle, given anything else (an
    argument that was left out is [undefined]) it throws a TypeError. *)
Definition bigtable_instance (name : Js.Val) : Async InstanceHandle :=
  if is_name name then Done (instance name) else Throw TypeError.

(** Modelled from the spec: [instance.cluster(name)], likewise. *)
Definition instance_cluster (i : InstanceHandle) (name : Js.Val) : Async ClusterHandle :=
  if is_name name then Done (cluster i name) else Throw TypeError.

(* ===================================================================== *)
(** ** Running against a remote service *)
(* ===================================================================== *)

(** What the process is seen to do. *)
Inductive Outcome : Type :=
| Resolved
| Rejected (err : Err).

Inductive Event : Type :=
| Issued (m : Method)                    (* the call leaves the process *)
| Settled (m : Method) (o : Outcome)     (* the handler resumes with its outcome *)
| Stdout (args : list Arg)               (* console.log *)
| Stderr (args : list Arg).              (* console.error *)

Definition Trace : Type := list Event.

(** The remote service and the client in front of it: any function that,
    knowing the calls made so far, settles the next one. *)
Definition Remote : Type := list Method -> forall m : Method, Settlement m.

Definition outcome {m : Method} (r : Settlement m) : Outcome :=
  match r with
  | inl _ => Resolved
  | inr err => Rejected err
  end.

(** How a run of a body ends. *)
Inductive Completion (A : Type) : Type :=
| Normal (a : A)
| Returned
| Uncaught (err : Err).

Arguments Normal {A} a.
Arguments Returned {A}.
Arguments Uncaught {A} err.

Fixpoint exec {A : Type} (remote : Remote) (past : list Method) (p : Async A)
  : Trace * Completion A :=
  match p with
  | Done a => ([], Normal a)
  | Return => ([], Returned)
  | Throw err => ([], Uncaught err)
  | Await m k =>
      let r := remote past m in
      let rest := exec remote (past ++ [m]) (k r) in
      (Issued m :: Settled m (outcome r) :: fst rest, snd rest)
  | ConsoleLog args k =>
      let rest := exec remote past k in (Stdout args :: fst rest, snd rest)
  | ConsoleError args k =>
      let rest := exec remote past k in (Stderr args :: fst rest, snd rest)
  end.

Definition trace {A : Type} (remote : Remote) (p : Async A) : Trace :=
  fst (exec remote [] p).

Definition completion {A : Type} (remote : Remote) (p : Async A) : Completion A :=
  snd (exec remote [] p).

(** The client calls of a trace, in the order they were issued. *)
Fixpoint calls (t : Trace) : list Method :=
  match t with
  | [] => []
  | Issued m :: rest => m :: calls rest
  | _ :: rest => calls rest
  end.

(** What went to standard error, and to standard output. *)
Fixpoint stderr (t : Trace) : list (list Arg) :=
  match t with
  | [] => []
  | Stderr args :: rest => args :: stderr rest
  | _ :: rest => stderr rest
  end.

Fixpoint stdout (t : Trace) : list (list Arg) :=
  match t with
  | [] => []
  | Stdout args :: rest => args :: stdout rest
  | _ :: rest => stdout rest
  end.

(* ===================================================================== *)
(** ** The five handlers of [samples/instances.js] *)
(* ===================================================================== *)

(** Each function is given here as it runs on its handles: [instance] and
    [cluster] stand for the handles [bigtable.instance(instanceName)] and
    [instance.cluster(clusterName)] have returned, which they do for every
    name that is a string.  The building of the handles at the head of a
    function, where it can throw, is in [Entry] below. *)

Module Samples.

Import Js.

Definition runInstanceOperations (instanceName clusterName : Val) : Async unit :=
  async_function (
    let instance := Client.instance instanceName in
    console_log [Text [Lit "Check Instance Exists"]] ;;
    instanceExists <-
      try_ (await (exists_ instance))
      catch_ (fun err =>
        console_error [Text [Lit "Error checking if Instance exists:"]; Value err] ;;
        Return) ;;
    (* Create instance if does not exists *)
    (if negb instanceExists then
       console_log [Text [Lit "Creating a PRODUCTION Instance"]] ;;
       let instanceOptions :=
         Obj [ ("clusters",
                Arr [ Obj [ ("name", clusterName);
                            ("nodes", Num 3);
                            ("location", Str "us-central1-f");
                            ("storage", Str "ssd") ] ]);
               ("type", Str "PRODUCTION");
               ("labels", Obj [ ("prod-label", Str "prod-label") ]) ] in
       try_ (prodInstance <- await (create instance instanceOptions) ;;
             console_log [Text [Lit "Created Instance: "; Sub (name prodInstance)]])
       catch_ (fun err =>
         console_error [Text [Lit "Error creating prod-instance:"]; Value err] ;;
         Return)
     else
       console_log [Text [Lit "Instance "; SubName instance; Lit " exists"]]) ;;
    console_log [] ;;
    console_log [Text [Lit "Listing Instances:"]] ;;
    (try_ (instances <- await getInstances ;;
           forEach instances (fun instance => console_log [Value (name instance)]))
     catch_ (fun err =>
       console_error [Text [Lit "Error listing instances:"]; Value err] ;;
       Return)) ;;
    console_log [] ;;
    console_log [Text [Lit "Get Instance"]] ;;
    (try_ (instance <- await (get (Client.instance instanceName)) ;;
           console_log [Text [Lit "Instance Name: "; Sub (name instance)]] ;;
           console_log [Text [Lit "Instance Meta: "; SubJSON (metadata instance)]])
     catch_ (fun err =>
       console_error [Text [Lit "Error getting instance:"]; Value err] ;;
       Return)) ;;
    console_log [] ;;
    console_log [Text [Lit "Listing Clusters..."]] ;;
    (try_ (let instance := Client.instance instanceName in
           clusters <- await (getClusters instance) ;;
           forEach clusters (fun cluster => console_log [Value (id cluster)]))
     catch_ (fun err =>
       console_error [Text [Lit "Error creating cluster:"]; Value err] ;;
       Return))
  ).

Definition createDevInstance (instanceName clusterName : Val) : Async unit :=
  async_function (
    console_log [] ;;
    console_log [Text [Lit "Creating a DEVELOPMENT Instance"]] ;;
    (* Set options to create an Instance *)
    let options :=
      Obj [ ("clusters",
             Arr [ Obj [ ("name", clusterName);
                         ("location", Str "us-central1-f");
                         ("storage", Str "hdd") ] ]);
            ("type", Str "DEVELOPMENT");
            ("labels", Obj [ ("dev-label", Str "dev-label") ]) ] in
    try_ (instance <- await (createInstance instanceName options) ;;
          console_log [Text [Lit "Created development instance: "; Sub (name instance)]])
    catch_ (fun err =>
      console_error [Text [Lit "Error creating dev-instance:"]; Value err] ;;
      Return)
  ).

Definition deleteInstance (instanceName : Val) : Async unit :=
  async_function (
    let instance := Client.instance instanceName in
    console_log [] ;;
    console_log [Text [Lit "Deleting Instance"]] ;;
    try_ (await (delete instance) ;;
          console_log [Text [Lit "Instance deleted: "; SubName instance]])
    catch_ (fun err =>
      console_error [Text [Lit "Error deleting instance:"]; Value err])
  ).

Definition addCluster (instanceName clusterName : Val) : Async unit :=
  async_function (
    let instance := Client.instance instanceName in
    instanceExists <-
      try_ (await (exists_ instance))
      catch_ (fun err =>
        console_error [Text [Lit "Error checking if Instance exists:"]; Value err] ;;
        Return) ;;
    if negb instanceExists then
      console_log [Text [Lit "Instance does not exists"]]
    else
      console_log [] ;;
      console_log [Text [Lit "Adding Cluster to Instance "; SubName instance]] ;;
      let clusterOptions :=
        Obj [ ("location", Str "us-central1-c");
              ("nodes", Num 3);
              ("storage", Str "ssd") ] in
      try_ (cluster <- await (createCluster instance clusterName clusterOptions) ;;
            console_log [Text [Lit "Cluster created: "; Sub (id cluster)]])
      catch_ (fun err =>
        console_error [Text [Lit "Error creating cluster:"]; Value err] ;;
        Return)
  ).

Definition deleteCluster (instanceName clusterName : Val) : Async unit :=
  async_function (
    let instance := Client.instance instanceName in
    let cluster := Client.cluster instance clusterName in
    console_log [] ;;
    console_log [Text [Lit "Deleting Cluster"]] ;;
    (try_ (await (cluster_delete cluster) ;; ret tt)
     catch_ (fun err =>
       console_error [Text [Lit "Error deleting cluster:"]; Value err] ;;
       Return)) ;;
    console_log [Text [Lit "Cluster deleted: "; SubId cluster]]
  ).

End Samples.

(* ===================================================================== *)
(** ** The handlers as they are called *)
(* ===================================================================== *)

(** A call of one of the functions starts by building its handles, outside
    every [try] (lines 23, 149, 166 and 205-206); an error thrown there
    leaves the function before it has printed or called anything.  Past
    that point the function is the one of [Samples]; the later
    [bigtable.instance(instanceName)] of [runInstanceOperations] are given
    the same name again.  [createDevInstance] builds no handle. *)

Module Entry.

Definition runInstanceOperations (instanceName clusterName : Js.Val) : Async unit :=
  bigtable_instance instanceName ;;
  Samples.runInstanceOperations instanceName clusterName.

Definition createDevInstance (instanceName clusterName : Js.Val) : Async unit :=
  Samples.createDevInstance instanceName clusterName.

Definition deleteInstance (instanceName : Js.Val) : Async unit :=
  bigtable_instance instanceName ;;
  Samples.deleteInstance instanceName.

Definition addCluster (instanceName clusterName : Js.Val) : Async unit :=
  bigtable_instance instanceName ;;
  Samples.addCluster instanceName clusterName.

Definition deleteCluster (instanceName clusterName : Js.Val) : Async unit :=
  instance <- bigtable_instance instanceName ;;
  instance_cluster instance clusterName ;;
  Samples.deleteCluster instanceName clusterName.

End Entry.

(* ===================================================================== *)
(** ** The yargs dispatcher *)
(* ===================================================================== *)

Module Yargs.

(** The command line as yargs' parser hands it over: the non-option
    arguments ([argv._], as [String] shows them), the options that were
    given with their values, and the parser's own error, if any (an option
    not followed by the values [nargs] asks for). *)
Record Parsed : Type := {
  positional : list string;
  named : list (string * Js.Val);
  error : option string
}.

(** The [argv] object a command handler receives. *)
Definition argv_object (p : Parsed) : Js.Val :=
  Js.Obj (("_", Js.Arr (map Js.Str (positional p))) :: named p).

(** One option of a command's builder object. *)
Record OptionSpec : Type := { demandOption : bool }.

Record Command : Type := {
  command_name : string;
  command_description : string;
  builder : list (string * OptionSpec);
  handler : Js.Val -> Async unit
}.

(** What the chained calls configure. *)
Record Config : Type := {
  demandedCommands : nat;                 (* least number of non-option arguments *)
  commands : list Command;
  examples : list (string * string);
  wrapColumns : option nat;
  narg : list (string * nat);
  descriptions : list (string * string);
  demandedOptions : list string;          (* options declared required *)
  recommend : bool;
  epilog : option string;
  helpOpt : option string;
  versionOpt : option string;
  strictMode : bool
}.

(** [require('yargs')]: nothing demanded, no command; [--help] and
    [--version] are there from the start. *)
Definition yargs : Config := {|
  demandedCommands := 0; commands := []; examples := []; wrapColumns := None;
  narg := []; descriptions := []; demandedOptions := []; recommend := false;
  epilog := None; helpOpt := Some "help"; versionOpt := Some "version";
  strictMode := false
|}.

(** [.demand(n)] with a number demands non-option arguments. *)
Definition demand (n : nat) (y : Config) : Config :=
  {| demandedCommands := n; commands := commands y; examples := examples y;
     wrapColumns := wrapColumns y; narg := narg y; descriptions := descriptions y;
     demandedOptions := demandedOptions y; recommend := recommend y;
     epilog := epilog y; helpOpt := helpOpt y; versionOpt := versionOpt y;
     strictMode := strictMode y |}.

Definition command (cmd description : string) (builder : list (string * OptionSpec))
    (handler : Js.Val -> Async unit) (y : Config) : Config :=
  {| demandedCommands := demandedCommands y;
     commands := commands y ++ [ {| command_name := cmd;
                                    command_description := description;
                                    builder := builder;
                                    handler := handler |} ];
     examples := examples y;
     wrapColumns := wrapColumns y; narg := narg y; descriptions := descriptions y;
     demandedOptions := demandedOptions y; recommend := recommend y;
     epilog := epilog y; helpOpt := helpOpt y; versionOpt := versionOpt y;
     strictMode := strictMode y |}.

Definition example (cmd description : string) (y : Config) : Config :=
  {| demandedCommands := demandedCommands y; commands := commands y;
     examples := examples y ++ [(cmd, description)];
     wrapColumns := wrapColumns y; narg := narg y; descriptions := descriptions y;
     demandedOptions := demandedOptions y; recommend := recommend y;
     epilog := epilog y; helpOpt := helpOpt y; versionOpt := versionOpt y;
     strictMode := strictMode y |}.

Definition wrap (columns : nat) (y : Config) : Config :=
  {| demandedCommands := demandedCommands y; commands := commands y;
     examples := examples y; wrapColumns := Some columns; narg := narg y;
     descriptions := descriptions y;
     demandedOptions := demandedOptions y; recommend := recommend y;
     epilog := epilog y; helpOpt := helpOpt y; versionOpt := versionOpt y;
     strictMode := strictMode y |}.

Definition nargs (key : string) (n : nat) (y : Config) : Config :=
  {| demandedCommands := demandedCommands y; commands := commands y;
     examples := examples y; wrapColumns := wrapColumns y;
     narg := narg y ++ [(key, n)]; descriptions := descriptions y;
     demandedOptions := demandedOptions y; recommend := recommend y;
     epilog := epilog y; helpOpt := helpOpt y; versionOpt := versionOpt y;
     strictMode := strictMode y |}.

Definition describe (key description : string) (y : Config) : Config :=
  {| demandedCommands := demandedCommands y; commands := commands y;
     examples := examples y; wrapColumns := wrapColumns y; narg := narg y;
     descriptions := descriptions y ++ [(key, description)];
     demandedOptions := demandedOptions y; recommend := recommend y;
     epilog := epilog y; helpOpt := helpOpt y; versionOpt := versionOpt y;
     strictMode := strictMode y |}.

Definition recommendCommands (y : Config) : Config :=
  {| demandedCommands := demandedCommands y; commands := commands y;
     examples := examples y; wrapColumns := wrapColumns y; narg := narg y;
     descriptions := descriptions y;
     demandedOptions := demandedOptions y; recommend := true;
     epilog := epilog y; helpOpt := helpOpt y; versionOpt := versionOpt y;
     strictMode := strictMode y |}.

Definition epilogue (text : string) (y : Config) : Config :=
  {| demandedCommands := demandedCommands y; commands := commands y;
     examples := examples y; wrapColumns := wrapColumns y; narg := narg y;
     descriptions := descriptions y;
     demandedOptions := demandedOptions y; recommend := recommend y;
     epilog := Some text; helpOpt := helpOpt y; versionOpt := versionOpt y;
     strictMode := strictMode y |}.

Definition help (y : Config) : Config :=
  {| demandedCommands := demandedCommands y; commands := commands y;
     examples := examples y; wrapColumns := wrapColumns y; narg := narg y;
     descriptions := descriptions y;
     demandedOptions := demandedOptions y; recommend := recommend y;
     epilog := epilog y; helpOpt := Some "help"; versionOpt := versionOpt y;
     strictMode := strictMode y |}.

Definition strict (y : Config) : Config :=
  {| demandedCommands := demandedCommands y; commands := commands y;
     examples := examples y; wrapColumns := wrapColumns y; narg := narg y;
     descriptions := descriptions y;
     demandedOptions := demandedOptions y; recommend := recommend y;
     epilog := epilog y; helpOpt := helpOpt y; versionOpt := versionOpt y;
     strictMode := true |}.

(** *** What [.argv] does with a configuration *)

Definition mem (key : string) (l : list string) : bool :=
  existsb (String.eqb key) l.

Definition option_list {A : Type} (o : option A) : list A :=
  match o with Some a => [a] | None => [] end.

Definition find_command (y : Config) (cmd : string) : option Command :=
  find (fun c => String.eqb (command_name c) cmd) (commands y).

(** The option names yargs has heard of through the chain or a builder. *)
Definition known_options (y : Config) (builder : list (string * OptionSpec))
  : list string :=
  map fst (narg y) ++ map fst (descriptions y) ++ demandedOptions y
    ++ option_list (helpOpt y) ++ option_list (versionOpt y) ++ map fst builder.

(** The options that have to be given: those demanded on the chain and
    those a builder marks [demandOption]. *)
Definition required_options (y : Config) (builder : list (string * OptionSpec))
  : list string :=
  demandedOptions y
    ++ map fst (filter (fun kv => demandOption (snd kv)) builder).

Definition given (p : Parsed) (key : string) : bool :=
  match Js.lookup key (named p) with
  | Some Js.Undefined => false
  | Some _ => true
  | None => false
  end.

Definition missing_required (y : Config) (builder : list (string * OptionSpec))
    (p : Parsed) : list string :=
  filter (fun key => negb (given p key)) (required_options y builder).

Definition unknown_options (y : Config) (builder : list (string * OptionSpec))
    (p : Parsed) : list string :=
  filter (fun key => negb (mem key (known_options y builder)))
         (map fst (named p)).

Definition flag_set (p : Parsed) (flag : option string) : bool :=
  match flag with
  | Some key => match Js.lookup key (named p) with
                | Some v => Js.truthy v
                | None => false
                end
  | None => false
  end.

(** [--help] and [--version] are looked for among the given options in
    the order they appear in [argv]; the first one set wins. *)
Definition help_or_version (y : Config) (p : Parsed) : option Arg :=
  let shows (kv : string * Js.Val) : option Arg :=
    if Js.truthy (snd kv) then
      if mem (fst kv) (option_list (helpOpt y)) then Some Usage
      else if mem (fst kv) (option_list (versionOpt y)) then Some Version
      else None
    else None in
  fold_right (fun kv later => match shows kv with Some a => Some a | None => later end)
             None (named p).

(** Edit distance, by rows of the usual table: [prev] is the row above,
    [left] the cell just filled. *)
Fixpoint next_row (x : Ascii.ascii) (b : list Ascii.ascii) (prev : list nat)
    (left : nat) : list nat :=
  match b, prev with
  | z :: b', diag :: ((up :: _) as prev') =>
      let cell := if Ascii.eqb x z then diag
                  else S (Nat.min diag (Nat.min left up)) in
      cell :: next_row x b' prev' cell
  | _, _ => []
  end.

Fixpoint rows (a b : list Ascii.ascii) (prev : list nat) (i : nat) : list nat :=
  match a with
  | [] => prev
  | x :: a' => rows a' b (i :: next_row x b prev i) (S i)
  end.

Definition levenshtein (a b : string) : nat :=
  let b' := list_ascii_of_string b in
  last (rows (list_ascii_of_string a) b' (seq 0 (S (length b'))) 1) 0%nat.

Definition close_to_a_command (y : Config) (cmd : string) : bool :=
  existsb (fun c => levenshtein cmd (command_name c) <=? 3)%nat (commands y).

(** A failure: the usage text and the message on standard error, exit 1. *)
Definition fail (c : Complaint) : Async Z :=
  console_error [Usage] ;;
  console_error [Failure c] ;;
  ret 1%Z.

(** [--help] and [--version] print to standard output and exit 0. *)
Definition show (a : Arg) : Async Z :=
  console_log [a] ;;
  ret 0%Z.

(** The non-option arguments that are no command, once commands exist. *)
Definition unknown_words (y : Config) (p : Parsed) : list string :=
  match commands y with
  | [] => []
  | _ :: _ => filter (fun w => negb (mem w (map command_name (commands y))))
                     (positional p)
  end.

(** Modelled from the spec: yargs is a dependency of the sample
    ([package.json] asks for yargs ^11.0.0), not part of it.  The
    argument-parsing collaborator prints its usage text and exits non-zero
    when no subcommand is given, when an unrecognized subcommand or flag is
    given, or when a required named argument is missing; which arguments
    are required is what the chain declares.  The checks come in yargs'
    order: the parser's error, the number of non-option arguments, the
    required options and, in strict mode, what is unknown. *)
Definition validation (y : Config) (builder : list (string * OptionSpec))
    (need : nat) (words : list string) (p : Parsed) : option Complaint :=
  match error p with
  | Some message => Some (ParseError message)
  | None =>
      if (length (positional p) <? need)%nat
      then Some (NotEnoughNonOptionArguments (length (positional p)) need)
      else
        match missing_required y builder p with
        | (_ :: _) as keys => Some (MissingRequiredArguments keys)
        | [] =>
            match (if strictMode y
                   then (unknown_options y builder p ++ words)%list
                   else []) with
            | (_ :: _) as keys => Some (UnknownArguments keys)
            | [] => None
            end
        end
  end.

(** [--help] and [--version] come before validation; what is left to do
    happens only when validation passes. *)
Definition checked (y : Config) (builder : list (string * OptionSpec))
    (need : nat) (words : list string) (p : Parsed) (then_ : Async Z) : Async Z :=
  match help_or_version y p with
  | Some a => show a
  | None =>
      match validation y builder need words p with
      | Some c => fail c
      | None => then_
      end
  end.

(** Modelled from the spec: what becomes of the handler's promise.  When
    it resolves the process ends with exit code 0.  An error the handler
    lets through (a missing argument its first lines cannot do without) is
    a failure of the collaborator like the others: the usage text and the
    error on standard error, exit 1. *)
Definition rejected_handler (err : Err) : Async Z :=
  console_error [Usage] ;;
  console_error [Value err] ;;
  ret 1%Z.

Definition invoke (body : Async unit) : Async Z :=
  try_ (body ;; ret 0%Z) catch_ rejected_handler.

(** A recognised command: its builder is applied (the demand on the
    number of non-option arguments and the commands themselves are not
    carried into the command's context), then come the checks, and only
    then the handler. *)
Definition runCommand (y : Config) (c : Command) (p : Parsed) : Async Z :=
  checked y (builder c) 0 [] p
    (invoke (handler c (argv_object p))).

(** Modelled from the spec: the dispatch of the argument-parsing
    collaborator, which resolves one of the registered subcommands and
    invokes its handler, or fails with the usage text.  [.argv] looks at
    the first non-option argument. *)
Definition argv (y : Config) (p : Parsed) : Async Z :=
  match positional p with
  | first :: _ =>
      match find_command y first with
      | Some c => runCommand y c p
      | None =>
          if recommend y && negb (flag_set p (helpOpt y))
             && close_to_a_command y first
          then fail DidYouMean
          else checked y [] (demandedCommands y) (unknown_words y p) p (ret 0%Z)
      end
  | [] => checked y [] (demandedCommands y) (unknown_words y p) p (ret 0%Z)
  end.

End Yargs.

(* ===================================================================== *)
(** ** The program *)
(* ===================================================================== *)

Import Yargs.

(** Chained calls read top to bottom. *)
Notation "y '.>' f" := (f y) (at level 50, left associativity, only parsing).

(** The chain at the end of [samples/instances.js], up to [.argv]. *)
Definition cli : Config :=
  yargs
  .> demand 1
  .> command "run"
       "Creates an Instance(type: PRODUCTION) and run basic instance-operations"
       []
       (fun argv => Entry.runInstanceOperations
                      (Js.prop "instance" argv) (Js.prop "cluster" argv))
  .> example "node $0 run --instance [instanceName] --cluster [clusterName]"
       "Run instance operations"
  .> command "dev-instance" "Create Development Instance" []
       (fun argv => Entry.createDevInstance
                      (Js.prop "instance" argv) (Js.prop "cluster" argv))
  .> example "node $0 dev-instance --instance [instanceName]"
       "Create Development Instance"
  .> command "del-instance" "Delete the Instance" []
       (fun argv => Entry.deleteInstance (Js.prop "instance" argv))
  .> example "node $0 del-instance --instance [instanceName]"
       "Delete the Instance."
  .> command "add-cluster" "Add Cluster" []
       (fun argv => Entry.addCluster
                      (Js.prop "instance" argv) (Js.prop "cluster" argv))
  .> example "node $0 add-cluster --instance [instanceName] --cluster [clusterName]"
       "Add Cluster"
  .> command "del-cluster" "Delete the Cluster" []
       (fun argv => Entry.deleteCluster
                      (Js.prop "instance" argv) (Js.prop "cluster" argv))
  .> example "node $0 del-cluster --instance [instanceName] --cluster [clusterName]"
       "Delete the Cluster"
  .> wrap 120
  .> nargs "instance" 1
  .> nargs "cluster" 1
  .> describe "instance" "Cloud Bigtable Instance name"
  .> describe "cluster" "Cloud Bigtable Cluster name"
  .> recommendCommands
  .> epilogue "For more information, see https://cloud.google.com/bigtable/docs"
  .> help
  .> strict.

(** Running the script on a parsed command line; the result is the exit
    code of the process. *)
Definition main (p : Parsed) : Async Z := argv cli p.


(* ===================================================================== *)
(** ** What is read off a trace *)
(* ===================================================================== *)

(** The options of the calls that create an instance, by either route
    ([instance.create] or [bigtable.createInstance]). *)
Definition creation_options (m : Method) : list Js.Val :=
  match m with
  | create _ options => [options]
  | createInstance _ options => [options]
  | _ => []
  end.

Definition instance_creations (t : Trace) : list Js.Val :=
  flat_map creation_options (calls t).

(** The calls that create a cluster under an instance. *)
Definition cluster_creation (m : Method) : list (InstanceHandle * Js.Val * Js.Val) :=
  match m with
  | createCluster i cluster_name options => [(i, cluster_name, options)]
  | _ => []
  end.

Definition cluster_creations (t : Trace) : list (InstanceHandle * Js.Val * Js.Val) :=
  flat_map cluster_creation (calls t).

(** The entries of the [clusters] array of create options. *)
Definition cluster_entries (options : Js.Val) : list Js.Val :=
  match Js.prop "clusters" options with
  | Js.Arr entries => entries
  | _ => []
  end.

(** Each call is settled before anything else happens: the handler is
    suspended from the moment a call is issued until its outcome is in. *)
Inductive in_turn : Trace -> Prop :=
| in_turn_end : in_turn []
| in_turn_call (m : Method) (o : Outcome) (t : Trace) :
    in_turn t -> in_turn (Issued m :: Settled m o :: t)
| in_turn_stdout (args : list Arg) (t : Trace) :
    in_turn t -> in_turn (Stdout args :: t)
| in_turn_stderr (args : list Arg) (t : Trace) :
    in_turn t -> in_turn (Stderr args :: t).

(** A rejected call is followed by the report of its error, one line on
    standard error made of a fixed text and the error that was caught, and
    by nothing else: no call, no other line. *)
Fixpoint fail_stop (t : Trace) : Prop :=
  match t with
  | [] => True
  | Settled _ (Rejected err) :: rest =>
      exists prefix : string, rest = [Stderr [Text [Lit prefix]; Value err]]
  | _ :: rest => fail_stop rest
  end.

(** The calls that were rejected: what they were for, and with what error. *)
Fixpoint rejected (t : Trace) : list (Operation * Err) :=
  match t with
  | [] => []
  | Settled m (Rejected err) :: rest => (operation m, err) :: rejected rest
  | _ :: rest => rejected rest
  end.

(** [needle] occurs somewhere in [text]. *)
Fixpoint contains (needle text : string) : bool :=
  match text with
  | EmptyString => String.prefix needle EmptyString
  | String _ rest => String.prefix needle text || contains needle rest
  end.

(** A run of [console.log] calls, each with one argument. *)
Definition logs {A : Type} (lines : list Arg) (k : Async A) : Async A :=
  fold_right (fun line rest => ConsoleLog [line] rest) k lines.

(** The command line ends in a usage failure: usage text on standard
    error, a non-zero exit code, and no call of the client. *)
Definition usage_failure (remote : Remote) (p : Parsed) : Prop :=
  In [Usage] (stderr (trace remote (main p)))
  /\ (exists code : Z, completion remote (main p) = Normal code /\ code <> 0%Z)
  /\ calls (trace remote (main p)) = [].

(** The names the dispatcher knows. *)
Definition subcommands : list string :=
  ["run"; "dev-instance"; "del-instance"; "add-cluster"; "del-cluster"].

Definition flags : list string := ["instance"; "cluster"; "help"; "version"].

(** A command line yargs has a reason to refuse: no subcommand, a first
    word that is no subcommand, an option that is none of the flags, or an
    option left without its value. *)
Definition malformed (p : Parsed) : bool :=
  match positional p with
  | [] => true
  | first :: _ => negb (mem first subcommands)
  end
  || negb (forallb (fun kv => mem (fst kv) flags) (named p))
  || match error p with Some _ => true | None => false end.

(* ===================================================================== *)
(** ** Remote services to run against *)
(* ===================================================================== *)

Definition an_instance (n : string) : Instance :=
  {| name := Js.Str n; metadata := Js.Obj [] |}.

Definition a_cluster (n : string) : Cluster := {| id := Js.Str n |}.

(** A service on which every call succeeds and the instance asked about is
    absent or present as [present] says. *)
Definition obliging (present : bool) : Remote :=
  fun _ m =>
    match m return Settlement m with
    | exists_ _ => inl present
    | create _ _ => inl (an_instance "projects/p/instances/foo")
    | getInstances => inl [an_instance "projects/p/instances/foo"]
    | get _ => inl (an_instance "projects/p/instances/foo")
    | getClusters _ => inl [a_cluster "projects/p/instances/foo/clusters/bar"]
    | createInstance _ _ => inl (an_instance "projects/p/instances/foo")
    | delete _ => inl tt
    | createCluster _ _ _ => inl (a_cluster "projects/p/instances/foo/clusters/baz")
    | cluster_delete _ => inl tt
    end.

Definition operation_eqb (a b : Operation) : bool :=
  match a, b with
  | CheckInstanceExists, CheckInstanceExists => true
  | CreateInstance, CreateInstance => true
  | ListInstances, ListInstances => true
  | GetInstance, GetInstance => true
  | ListClusters, ListClusters => true
  | DeleteInstance, DeleteInstance => true
  | CreateCluster, CreateCluster => true
  | DeleteCluster, DeleteCluster => true
  | _, _ => false
  end.

(** A service that answers like [obliging], except that the calls of one
    operation are rejected. *)
Definition failing_at (op : Operation) (present : bool) : Remote :=
  fun past m =>
    if operation_eqb (operation m) op then inr (Js.Str "UNAVAILABLE")
    else obliging present past m.

(** The inputs of the end-to-end scenario. *)
Definition foo : Js.Val := Js.Str "foo".
Definition bar : Js.Val := Js.Str "bar".

Definition command_line (cmd : string) (options : list (string * Js.Val)) : Parsed :=
  {| positional := [cmd]; named := options; error := None |}.

(* ===================================================================== *)
(** ** What the statements below are about *)
(* ===================================================================== *)

(** The create options as the scenario of the specification lists them:
    the clusters and the type, nothing else. *)
Definition scenario_options (clusterName : Js.Val) : Js.Val :=
  Js.Obj [ ("clusters",
            Js.Arr [ Js.Obj [ ("name", clusterName);
                              ("nodes", Js.Num 3);
                              ("location", Js.Str "us-central1-f");
                              ("storage", Js.Str "ssd") ] ]);
           ("type", Js.Str "PRODUCTION") ].

(** The scenario as it is told: on a fresh environment the five calls, the
    create call with just those options, each call settled before the
    next. *)
Definition scenario_as_told (remote : Remote) (instanceName clusterName : Js.Val) : Prop :=
  remote [] (exists_ (instance instanceName)) = inl false ->
  let t := trace remote (Samples.runInstanceOperations instanceName clusterName) in
  calls t = [ exists_ (instance instanceName);
              create (instance instanceName) (scenario_options clusterName);
              getInstances;
              get (instance instanceName);
              getClusters (instance instanceName) ]
  /\ in_turn t.

(** A service on which every call succeeds. *)
Definition dependable (remote : Remote) : Prop :=
  forall (past : list Method) (m : Method), outcome (remote past m) = Resolved.

(** The named arguments the specification's table of commands requires. *)
Definition required_arguments (cmd : string) : list string :=
  if String.eqb cmd "del-instance" then ["instance"] else ["instance"; "cluster"].

(** The value a handler is passed for a named argument: what was given on
    the command line, [undefined] when the option was left out. *)
Definition supplied (key : string) (p : Parsed) : Js.Val :=
  match Js.lookup key (named p) with
  | Some v => v
  | None => Js.Undefined
  end.

(** The function behind each subcommand, applied to the instance and the
    cluster argument. *)
Definition wiring : list (string * (Js.Val -> Js.Val -> Async unit)) :=
  [ ("run", Entry.runInstanceOperations);
    ("dev-instance", Entry.createDevInstance);
    ("del-instance", fun instanceName _ => Entry.deleteInstance instanceName);
    ("add-cluster", Entry.addCluster);
    ("del-cluster", Entry.deleteCluster) ].

(** The cluster name each call that creates something carries: the name of
    every cluster entry of create options, and the name given to
    [createCluster]. *)
Definition cluster_names (t : Trace) : list Js.Val :=
  flat_map (fun options => map (Js.prop "name") (cluster_entries options))
           (instance_creations t)
  ++ map (fun made => snd (fst made)) (cluster_creations t).

(** The instance a call is about. *)
Definition instance_named (m : Method) : option Js.Val :=
  match m with
  | exists_ i | create i _ | get i | getClusters i | delete i
  | createCluster i _ _ => Some (instance_arg i)
  | createInstance instance_name _ => Some instance_name
  | cluster_delete c => Some (instance_arg (cluster_of c))
  | getInstances => None
  end.

(* ===================================================================== *)
(** ** Further readings of a run *)
(* ===================================================================== *)

(** The calls that were rejected, as issued, each with its error. *)
Fixpoint rejected_calls (t : Trace) : list (Method * Err) :=
  match t with
  | [] => []
  | Settled m (Rejected err) :: rest => (m, err) :: rejected_calls rest
  | _ :: rest => rejected_calls rest
  end.

(** Calls that take something away, and calls that bring something about. *)
Definition deletes (m : Method) : bool :=
  match m with
  | delete _ | cluster_delete _ => true
  | _ => false
  end.

Definition creates (m : Method) : bool :=
  match m with
  | create _ _ | createInstance _ _ | createCluster _ _ _ => true
  | _ => false
  end.

(** The text in front of the error in the [catch] written for a call that
    names the call; the [catch] of [getClusters] is left out. *)
Definition error_text (m : Method) : option string :=
  match m with
  | exists_ _ => Some "Error checking if Instance exists:"
  | create _ _ => Some "Error creating prod-instance:"
  | getInstances => Some "Error listing instances:"
  | get _ => Some "Error getting instance:"
  | getClusters _ => None
  | createInstance _ _ => Some "Error creating dev-instance:"
  | delete _ => Some "Error deleting instance:"
  | createCluster _ _ _ => Some "Error creating cluster:"
  | cluster_delete _ => Some "Error deleting cluster:"
  end.

(** A run reports what was rejected: nothing on standard error when nothing
    was, and one line, the text and the caught error, for the one call that
    was. *)
Definition one_report (t : Trace) : Prop :=
  match rejected_calls t with
  | [] => stderr t = []
  | [(m, err)] =>
      match error_text m with
      | Some text => stderr t = [[Text [Lit text]; Value err]]
      | None => exists text : string, stderr t = [[Text [Lit text]; Value err]]
      end
  | _ :: _ :: _ => False
  end.



(** A call is about the instance of that name, or about no instance. *)
Definition about (instanceName : Js.Val) (m : Method) : Prop :=
  instance_named m = None \/ instance_named m = Some instanceName.

(* ===================================================================== *)
(** ** How runs decompose *)
(* ===================================================================== *)

Section Logs.

Context {A : Type}.

Lemma forEach_console_log (X : Type) (show : X -> Arg) (l : list X) :
  forEach l (fun x => console_log [show x]) = logs (map show l) (Done tt).
Proof.
  induction l as [|x l IH]; cbn; [reflexivity | f_equal; exact IH].
Qed.

Lemma bind_logs (B : Type) (lines : list Arg) (k : Async A) (f : A -> Async B) :
  Async_bind (logs lines k) f = logs lines (Async_bind k f).
Proof. induction lines as [|line lines IH]; cbn; [reflexivity | f_equal; exact IH]. Qed.

Lemma try_catch_logs (lines : list Arg) (k : Async A) (h : Err -> Async A) :
  try_catch (logs lines k) h = logs lines (try_catch k h).
Proof. induction lines as [|line lines IH]; cbn; [reflexivity | f_equal; exact IH]. Qed.

Lemma exec_logs (remote : Remote) (past : list Method) (lines : list Arg) (k : Async A) :
  exec remote past (logs lines k)
  = (map (fun line => Stdout [line]) lines ++ fst (exec remote past k),
     snd (exec remote past k)).
Proof.
  induction lines as [|line lines IH]; cbn.
  - destruct (exec remote past k); reflexivity.
  - change (fold_right (fun line rest => ConsoleLog [line] rest) k lines)
      with (logs lines k).
    rewrite IH. reflexivity.
Qed.

End Logs.

Lemma async_function_logs (lines : list Arg) (k : Async unit) :
  async_function (logs lines k) = logs lines (async_function k).
Proof. induction lines as [|line lines IH]; cbn; [reflexivity | f_equal; exact IH]. Qed.

Section Quiet.

Variable lines : list Arg.
Variable t : Trace.

Let quiet : Trace := map (fun line => Stdout [line]) lines.

Lemma calls_logs : calls (quiet ++ t) = calls t.
Proof. subst quiet. induction lines; cbn; auto. Qed.

Lemma stderr_logs : stderr (quiet ++ t) = stderr t.
Proof. subst quiet. induction lines; cbn; auto. Qed.

Lemma rejected_logs : rejected (quiet ++ t) = rejected t.
Proof. subst quiet. induction lines; cbn; auto. Qed.

Lemma fail_stop_logs : fail_stop (quiet ++ t) <-> fail_stop t.
Proof. subst quiet. induction lines; cbn; tauto. Qed.

End Quiet.

(** A run leaves no call unsettled behind it, whatever the body. *)
Lemma exec_in_turn (A : Type) (p : Async A) :
  forall (remote : Remote) (past : list Method), in_turn (fst (exec remote past p)).
Proof.
  induction p as [a| |err|m k IH|args k IH|args k IH]; intros remote past; cbn;
    auto using in_turn.
Qed.

(** [fail_stop] says what it is meant to say about every rejection. *)
Lemma fail_stop_split (t : Trace) :
  fail_stop t ->
  forall pre m err post,
    t = pre ++ Settled m (Rejected err) :: post ->
    exists prefix : string, post = [Stderr [Text [Lit prefix]; Value err]].
Proof.
  intros H pre. revert t H.
  induction pre as [|e pre IH]; intros t H m err post ->; cbn in H.
  - exact H.
  - refine (IH (pre ++ Settled m (Rejected err) :: post) _ m err post eq_refl).
    destruct e as [m'|m' [|err']|args|args]; cbn in H; try exact H.
    destruct H as [prefix H]. destruct pre as [|e' [|e'' pre]]; discriminate H.
Qed.

(* ===================================================================== *)
(** ** Proof steps shared by the handlers *)
(* ===================================================================== *)

(** Bring the log loops of a handler to the front of what is run. *)
Ltac float_logs :=
  repeat (rewrite ?forEach_console_log, ?try_catch_logs, ?bind_logs,
            ?async_function_logs, ?exec_logs; cbn).

(** Split on how the next awaited call settles. *)
Ltac next_call remote :=
  match goal with
  | |- context [remote ?past ?m] =>
      let r := fresh "reply" in
      let E := fresh "settles" in
      destruct (remote past m) as [r|r] eqn:E;
      try (let T := type of r in
           let T' := eval cbn in T in
           match T' with bool => destruct r end);
      cbn in *; float_logs
  end.

Ltac step_through remote := cbn; float_logs; repeat next_call remote.

(** What is left once the trace is known. *)
Ltac read_trace :=
  repeat (cbn; rewrite ?calls_logs, ?stderr_logs, ?rejected_logs,
            ?fail_stop_logs).

Ltac settle_trace :=
  read_trace; cbn;
  repeat match goal with
         | |- _ /\ _ => split
         | |- True => exact I
         | |- exists _ : string, _ => eexists
         end;
  try reflexivity; auto.

(** Each handler stops at the first rejection, reports it, and ends
    without an error of its own. *)
Lemma runInstanceOperations_fail_stop (remote : Remote) (past : list Method)
    (instanceName clusterName : Js.Val) :
  let run := exec remote past (Samples.runInstanceOperations instanceName clusterName) in
  fail_stop (fst run) /\ snd run = Normal tt.
Proof. unfold Samples.runInstanceOperations. step_through remote; settle_trace. Qed.

Lemma createDevInstance_fail_stop (remote : Remote) (past : list Method)
    (instanceName clusterName : Js.Val) :
  let run := exec remote past (Samples.createDevInstance instanceName clusterName) in
  fail_stop (fst run) /\ snd run = Normal tt.
Proof. unfold Samples.createDevInstance. step_through remote; settle_trace. Qed.

Lemma deleteInstance_fail_stop (remote : Remote) (past : list Method)
    (instanceName : Js.Val) :
  let run := exec remote past (Samples.deleteInstance instanceName) in
  fail_stop (fst run) /\ snd run = Normal tt.
Proof. unfold Samples.deleteInstance. step_through remote; settle_trace. Qed.

Lemma addCluster_fail_stop (remote : Remote) (past : list Method)
    (instanceName clusterName : Js.Val) :
  let run := exec remote past (Samples.addCluster instanceName clusterName) in
  fail_stop (fst run) /\ snd run = Normal tt.
Proof. unfold Samples.addCluster. step_through remote; settle_trace. Qed.

Lemma deleteCluster_fail_stop (remote : Remote) (past : list Method)
    (instanceName clusterName : Js.Val) :
  let run := exec remote past (Samples.deleteCluster instanceName clusterName) in
  fail_stop (fst run) /\ snd run = Normal tt.
Proof. unfold Samples.deleteCluster. step_through remote; settle_trace. Qed.

(* ===================================================================== *)
(** ** The handlers, one by one *)
(* ===================================================================== *)

(** C3. For every instance name, [run] issues an instance create call if
    and only if the existence check reported the instance absent: when the
    check says absent there is exactly one create call, for that instance,
    whose options hold exactly one cluster entry with 3 nodes and storage
    "ssd" and whose type is "PRODUCTION"; when the check says present (or
    fails) there is no create call at all. *)
Theorem run_creates_iff_absent (remote : Remote) (instanceName clusterName : Js.Val) :
  let t := trace remote (Samples.runInstanceOperations instanceName clusterName) in
  match remote [] (exists_ (instance instanceName)) with
  | inl false =>
      exists options entry : Js.Val,
        instance_creations t = [options]
        /\ In (create (instance instanceName) options) (calls t)
        /\ cluster_entries options = [entry]
        /\ Js.prop "nodes" entry = Js.Num 3
        /\ Js.prop "storage" entry = Js.Str "ssd"
        /\ Js.prop "type" options = Js.Str "PRODUCTION"
  | inl true => instance_creations t = []
  | inr _ => instance_creations t = []
  end.
Proof.
  unfold trace, instance_creations, Samples.runInstanceOperations.
  step_through remote; read_trace; try reflexivity;
    do 2 eexists; repeat split; cbn; auto.
Qed.

(** C4. Every invocation of [dev-instance] issues exactly one call, a
    create-instance call, whose options have type "DEVELOPMENT" and a single
    cluster entry with storage "hdd" and no node count set. *)
Theorem dev_instance_creates_once (remote : Remote) (instanceName clusterName : Js.Val) :
  exists options entry : Js.Val,
    calls (trace remote (Samples.createDevInstance instanceName clusterName))
      = [createInstance instanceName options]
    /\ Js.prop "type" options = Js.Str "DEVELOPMENT"
    /\ cluster_entries options = [entry]
    /\ Js.prop "storage" entry = Js.Str "hdd"
    /\ Js.has "nodes" entry = false.
Proof.
  unfold trace, Samples.createDevInstance.
  do 2 eexists. step_through remote; repeat split; reflexivity.
Qed.

(** C5. For every instance name, [add-cluster] issues no create-cluster
    call and logs a message saying the instance "does not exist" when the
    existence check reports it absent; when the check reports it present,
    it issues exactly one create-cluster call, under that instance, with 3
    nodes, storage "ssd" and the fixed location "us-central1-c", which is
    not the location of any cluster entry that [run] or [dev-instance] put
    in their create options. *)
Theorem add_cluster_only_when_present (remote : Remote)
    (instanceName clusterName : Js.Val) :
  let t := trace remote (Samples.addCluster instanceName clusterName) in
  match remote [] (exists_ (instance instanceName)) with
  | inl false =>
      cluster_creations t = []
      /\ exists message : string,
           In [Text [Lit message]] (stdout t)
           /\ contains "does not exist" message = true
  | inl true =>
      exists options : Js.Val,
        cluster_creations t = [(instance instanceName, clusterName, options)]
        /\ Js.prop "nodes" options = Js.Num 3
        /\ Js.prop "storage" options = Js.Str "ssd"
        /\ Js.prop "location" options = Js.Str "us-central1-c"
        /\ forall (remote' : Remote) (instanceName' clusterName' : Js.Val),
             Forall (fun created =>
                       Forall (fun entry =>
                                 Js.prop "location" entry <> Js.prop "location" options)
                              (cluster_entries created))
                    (instance_creations
                       (trace remote' (Samples.runInstanceOperations
                                         instanceName' clusterName'))
                     ++ instance_creations
                          (trace remote' (Samples.createDevInstance
                                            instanceName' clusterName')))
  | inr _ => True
  end.
Proof.
  unfold trace, cluster_creations, Samples.addCluster.
  step_through remote; read_trace; try exact I.
  1, 2: eexists; repeat split; try reflexivity;
    intros remote' instanceName' clusterName';
    unfold trace, instance_creations, Samples.runInstanceOperations,
      Samples.createDevInstance;
    step_through remote'; read_trace;
    repeat constructor; cbn; discriminate.
  split; [reflexivity|].
  eexists; split; [left; reflexivity | reflexivity].
Qed.


(** C9. The create options carry a fixed labels mapping on top of the
    clusters and the type: whenever [run] creates the instance (the check
    said absent) its one create call has labels {'prod-label':
    'prod-label'}, and the one create call of [dev-instance] always has
    labels {'dev-label': 'dev-label'}. *)
Theorem create_options_carry_labels (remote : Remote)
    (instanceName clusterName : Js.Val) :
  match remote [] (exists_ (instance instanceName)) with
  | inl false =>
      exists options : Js.Val,
        instance_creations
          (trace remote (Samples.runInstanceOperations instanceName clusterName))
          = [options]
        /\ Js.prop "labels" options = Js.Obj [("prod-label", Js.Str "prod-label")]
  | _ =>
      instance_creations
        (trace remote (Samples.runInstanceOperations instanceName clusterName)) = []
  end
  /\ exists options : Js.Val,
       instance_creations
         (trace remote (Samples.createDevInstance instanceName clusterName))
         = [options]
       /\ Js.prop "labels" options = Js.Obj [("dev-label", Js.Str "dev-label")].
Proof.
  unfold trace, instance_creations, Samples.runInstanceOperations,
    Samples.createDevInstance.
  split.
  - step_through remote; read_trace; try reflexivity;
      eexists; split; reflexivity.
  - eexists. step_through remote; split; reflexivity.
Qed.

(* ===================================================================== *)
(** ** The end-to-end scenario *)
(* ===================================================================== *)

Example run_on_obliging_service :
  calls (trace (obliging false) (Samples.runInstanceOperations foo bar))
  = [ exists_ (instance foo);
      create (instance foo)
        (Js.Obj [ ("clusters",
                   Js.Arr [ Js.Obj [ ("name", bar); ("nodes", Js.Num 3);
                                     ("location", Js.Str "us-central1-f");
                                     ("storage", Js.Str "ssd") ] ]);
                  ("type", Js.Str "PRODUCTION");
                  ("labels", Js.Obj [ ("prod-label", Js.Str "prod-label") ]) ]);
      getInstances; get (instance foo); getClusters (instance foo) ].
Proof. reflexivity. Qed.

Example run_when_creation_fails :
  calls (trace (failing_at CreateInstance false) (Samples.runInstanceOperations foo bar))
  = [ exists_ (instance foo);
      create (instance foo)
        (Js.Obj [ ("clusters",
                   Js.Arr [ Js.Obj [ ("name", bar); ("nodes", Js.Num 3);
                                     ("location", Js.Str "us-central1-f");
                                     ("storage", Js.Str "ssd") ] ]);
                  ("type", Js.Str "PRODUCTION");
                  ("labels", Js.Obj [ ("prod-label", Js.Str "prod-label") ]) ]) ].
Proof. reflexivity. Qed.

(** C2, as stated, fails.  On a fresh environment where every call
    succeeds, the create options are not just the clusters and the type
    (they carry labels too); and on a fresh environment where the create
    call is rejected, the list, get and list-clusters calls are not issued
    at all. *)
Lemma run_scenario_not_as_told :
  ~ scenario_as_told (obliging false) foo bar
  /\ ~ scenario_as_told (failing_at CreateInstance false) foo bar
  /\ (failing_at CreateInstance false [] (exists_ (instance foo)) = inl false
      /\ ~ In getInstances
           (calls (trace (failing_at CreateInstance false)
                         (Samples.runInstanceOperations foo bar)))).
Proof.
  repeat split.
  - intros H. destruct (H eq_refl) as [H' _]. discriminate H'.
  - intros H. destruct (H eq_refl) as [H' _]. discriminate H'.
  - cbn. intros [H|[H|[]]]; discriminate H.
Qed.

(** C2, amended.  For [run] on a fresh environment (the existence check
    returns false) where every call succeeds, exactly five calls are
    issued: the existence check, the create call with options
    {clusters:[{name:<cluster arg>, nodes:3, location:"us-central1-f",
    storage:"ssd"}], type:"PRODUCTION", labels:{'prod-label':
    'prod-label'}}, then list-instances, get-instance and list-clusters,
    each once, in that order, each settled before the next is issued. *)
Theorem run_on_fresh_environment (remote : Remote) (instanceName clusterName : Js.Val) :
  remote [] (exists_ (instance instanceName)) = inl false ->
  dependable remote ->
  let t := trace remote (Samples.runInstanceOperations instanceName clusterName) in
  calls t = [ exists_ (instance instanceName);
              create (instance instanceName)
                (Js.Obj [ ("clusters",
                           Js.Arr [ Js.Obj [ ("name", clusterName);
                                             ("nodes", Js.Num 3);
                                             ("location", Js.Str "us-central1-f");
                                             ("storage", Js.Str "ssd") ] ]);
                          ("type", Js.Str "PRODUCTION");
                          ("labels", Js.Obj [ ("prod-label", Js.Str "prod-label") ]) ]);
              getInstances;
              get (instance instanceName);
              getClusters (instance instanceName) ]
  /\ in_turn t
  /\ rejected t = [].
Proof.
  intros fresh reliable t. split; [|split; [apply exec_in_turn|]]; subst t;
    unfold trace, Samples.runInstanceOperations; cbn; rewrite fresh; cbn;
    step_through remote; read_trace; try reflexivity;
    match goal with
    | H : remote ?past ?m = inr _ |- _ =>
        pose proof (reliable past m) as R; rewrite H in R; discriminate R
    end.
Qed.

Lemma run_on_fresh_environment_witness :
  let t := trace (obliging false) (Samples.runInstanceOperations foo bar) in
  obliging false [] (exists_ (instance foo)) = inl false
  /\ dependable (obliging false)
  /\ length (calls t) = 5%nat /\ in_turn t /\ rejected t = [].
Proof.
  assert (reliable : dependable (obliging false))
    by (intros past m; destruct m; reflexivity).
  destruct (run_on_fresh_environment (obliging false) foo bar eq_refl reliable)
    as [five [turns none]].
  cbv zeta. rewrite five. auto.
Defined.

(* ===================================================================== *)
(** ** The handlers as registered *)
(* ===================================================================== *)

Lemma cli_commands : map command_name (commands cli) = subcommands.
Proof. reflexivity. Qed.

(** For names that are strings a call of a function is the function on its
    handles. *)
Lemma entry_named (instanceName clusterName : string) :
  Entry.runInstanceOperations (Js.Str instanceName) (Js.Str clusterName)
  = Samples.runInstanceOperations (Js.Str instanceName) (Js.Str clusterName)
  /\ Entry.deleteInstance (Js.Str instanceName)
     = Samples.deleteInstance (Js.Str instanceName)
  /\ Entry.addCluster (Js.Str instanceName) (Js.Str clusterName)
     = Samples.addCluster (Js.Str instanceName) (Js.Str clusterName)
  /\ Entry.deleteCluster (Js.Str instanceName) (Js.Str clusterName)
     = Samples.deleteCluster (Js.Str instanceName) (Js.Str clusterName).
Proof. repeat split. Qed.

(** A registered handler either throws while building its handles, before
    anything else, or is one of the five functions on its handles. *)
Lemma registered_handler (c : Command) (argv : Js.Val) :
  In c (commands cli) ->
  let i := Js.prop "instance" argv in
  let n := Js.prop "cluster" argv in
  handler c argv = Throw TypeError
  \/ handler c argv = Samples.runInstanceOperations i n
  \/ handler c argv = Samples.createDevInstance i n
  \/ handler c argv = Samples.deleteInstance i
  \/ handler c argv = Samples.addCluster i n
  \/ handler c argv = Samples.deleteCluster i n.
Proof.
  intros registered i n. subst i n. cbn in registered.
  destruct registered as [<-|[<-|[<-|[<-|[<-|[]]]]]]; cbn [handler];
    unfold Entry.runInstanceOperations, Entry.createDevInstance,
      Entry.deleteInstance, Entry.addCluster, Entry.deleteCluster,
      bigtable_instance, instance_cluster;
    destruct (Js.prop "instance" argv); destruct (Js.prop "cluster" argv);
    cbn -[Samples.runInstanceOperations Samples.createDevInstance
          Samples.deleteInstance Samples.addCluster Samples.deleteCluster];
    tauto.
Qed.

(** Whatever [argv] a registered handler is given, a rejected call is
    followed by its report and nothing else. *)
Lemma handlers_fail_stop (c : Command) (argv : Js.Val) (remote : Remote)
    (past : list Method) :
  In c (commands cli) ->
  fail_stop (fst (exec remote past (handler c argv))).
Proof.
  intros registered.
  destruct (registered_handler c argv registered) as [E|[E|[E|[E|[E|E]]]]];
    rewrite E.
  - exact I.
  - apply runInstanceOperations_fail_stop.
  - apply createDevInstance_fail_stop.
  - apply deleteInstance_fail_stop.
  - apply addCluster_fail_stop.
  - apply deleteCluster_fail_stop.
Qed.

(** It either throws at once or ends without an error of its own. *)
Lemma handlers_throw_or_complete (c : Command) (argv : Js.Val) :
  In c (commands cli) ->
  handler c argv = Throw TypeError
  \/ forall (remote : Remote) (past : list Method),
       snd (exec remote past (handler c argv)) = Normal tt.
Proof.
  intros registered.
  destruct (registered_handler c argv registered) as [E|[E|[E|[E|[E|E]]]]];
    rewrite E; [left; reflexivity | right ..]; intros remote past.
  - apply runInstanceOperations_fail_stop.
  - apply createDevInstance_fail_stop.
  - apply deleteInstance_fail_stop.
  - apply addCluster_fail_stop.
  - apply deleteCluster_fail_stop.
Qed.

(* ===================================================================== *)
(** ** The dispatcher *)
(* ===================================================================== *)

(** What the dispatcher makes of a handler that ends normally, and of one
    that throws at once. *)
Lemma exec_invoke_completes (body : Async unit) (remote : Remote) (past : list Method) :
  snd (exec remote past body) = Normal tt ->
  exec remote past (invoke body) = (fst (exec remote past body), Normal 0%Z).
Proof.
  unfold invoke. cbn. revert past.
  induction body as [[]| |err|m k IH|args k IH|args k IH]; intros past; cbn;
    try discriminate; try reflexivity; intros H.
  - rewrite (IH _ _ H). reflexivity.
  - rewrite (IH _ H). reflexivity.
  - rewrite (IH _ H). reflexivity.
Qed.

Lemma exec_invoke_throws (err : Err) (remote : Remote) (past : list Method) :
  exec remote past (invoke (Throw err))
  = ([Stderr [Usage]; Stderr [Value err]], Normal 1%Z).
Proof. reflexivity. Qed.

Lemma fail_exec (remote : Remote) (c : Complaint) :
  exec remote [] (fail c) = ([Stderr [Usage]; Stderr [Failure c]], Normal 1%Z).
Proof. reflexivity. Qed.

Lemma checked_exec (remote : Remote) (builder : list (string * OptionSpec))
    (need : nat) (words : list string) (p : Parsed) (then_ : Async Z) :
  exec remote [] (checked cli builder need words p then_)
  = match help_or_version cli p with
    | Some a => ([Stdout [a]], Normal 0%Z)
    | None =>
        match validation cli builder need words p with
        | Some c => ([Stderr [Usage]; Stderr [Failure c]], Normal 1%Z)
        | None => exec remote [] then_
        end
    end.
Proof.
  unfold checked.
  destruct (help_or_version cli p); [reflexivity|].
  destruct (validation cli builder need words p); reflexivity.
Qed.

Lemma find_command_subcommand (first : string) :
  mem first subcommands = true ->
  exists c : Command, find_command cli first = Some c /\ builder c = [].
Proof.
  unfold mem, subcommands, find_command. cbn -[String.eqb].
  rewrite !(String.eqb_sym first).
  repeat match goal with
         | |- context [String.eqb ?a first] => destruct (String.eqb a first)
         end; cbn -[String.eqb]; try discriminate; intros _; eexists; split; reflexivity.
Qed.

Lemma find_command_stranger (first : string) :
  mem first subcommands = false -> find_command cli first = None.
Proof.
  unfold mem, subcommands, find_command. cbn -[String.eqb].
  rewrite !(String.eqb_sym first).
  repeat match goal with
         | |- context [String.eqb ?a first] => destruct (String.eqb a first)
         end; cbn -[String.eqb]; try discriminate; reflexivity.
Qed.

Lemma find_command_wiring (first : string) :
  mem first subcommands = true ->
  exists (c : Command) (h : Js.Val -> Js.Val -> Async unit),
    find_command cli first = Some c
    /\ builder c = []
    /\ In (first, h) wiring
    /\ handler c = fun argv => h (Js.prop "instance" argv) (Js.prop "cluster" argv).
Proof.
  unfold mem, subcommands, find_command, wiring. cbn -[String.eqb].
  rewrite !(String.eqb_sym first).
  repeat match goal with
         | |- context [String.eqb ?a first] =>
             destruct (String.eqb_spec a first) as [<-|]
         end; cbn -[String.eqb]; try discriminate; intros _;
    eexists; eexists; (split; [reflexivity|]); (split; [reflexivity|]);
    (split; [eauto 10 using in_eq, in_cons | reflexivity]).
Qed.

Lemma known_options_flags (key : string) :
  mem key (known_options cli []) = mem key flags.
Proof.
  unfold mem, flags. cbn -[String.eqb].
  destruct (String.eqb key "instance"), (String.eqb key "cluster"),
    (String.eqb key "help"), (String.eqb key "version"); reflexivity.
Qed.

Lemma unknown_options_none (p : Parsed) :
  unknown_options cli [] p = []
  <-> forallb (fun kv => mem (fst kv) flags) (named p) = true.
Proof.
  unfold unknown_options.
  induction (named p) as [|[key v] rest IH]; cbn [map filter forallb fst].
  - tauto.
  - rewrite known_options_flags.
    destruct (mem key flags); cbn; [exact IH | split; discriminate].
Qed.

Lemma validation_passes (builder : list (string * OptionSpec)) (need : nat)
    (words : list string) (p : Parsed) :
  validation cli builder need words p = None ->
  error p = None
  /\ (length (positional p) <? need)%nat = false
  /\ unknown_options cli builder p ++ words = [].
Proof.
  unfold validation.
  destruct (error p); [discriminate|].
  destruct (length (positional p) <? need)%nat; [discriminate|].
  destruct (missing_required cli builder p); [|discriminate].
  change (strictMode cli) with true. cbv iota.
  destruct (unknown_options cli builder p ++ words); [auto | discriminate].
Qed.

(** A command line with nothing wrong with it goes to the function behind
    its subcommand, with the two named arguments as they were supplied. *)
Lemma dispatch (p : Parsed) :
  help_or_version cli p = None ->
  malformed p = false ->
  exists (first : string) (c : Command) (h : Js.Val -> Js.Val -> Async unit),
    hd_error (positional p) = Some first
    /\ In c (commands cli)
    /\ In (first, h) wiring
    /\ handler c (argv_object p) = h (supplied "instance" p) (supplied "cluster" p)
    /\ main p = invoke (h (supplied "instance" p) (supplied "cluster" p)).
Proof.
  intros no_help fine. unfold malformed in fine.
  destruct (positional p) as [|first rest] eqn:words; [discriminate|].
  destruct (mem first subcommands) eqn:is_command; [|discriminate].
  destruct (forallb _ (named p)) eqn:all_known; [|discriminate].
  destruct (error p) eqn:parsed; [discriminate|]. clear fine.
  apply unknown_options_none in all_known.
  destruct (find_command_wiring first is_command)
    as [c [h [found [no_builder [wired calls_h]]]]].
  exists first, c, h.
  assert (registered : In c (commands cli)) by (apply find_some in found; tauto).
  assert (as_supplied : handler c (argv_object p)
                        = h (supplied "instance" p) (supplied "cluster" p))
    by (rewrite calls_h; reflexivity).
  repeat split; auto.
  unfold main, argv, runCommand, checked.
  rewrite words, found, no_help, no_builder.
  unfold validation. rewrite parsed. cbn -[handler invoke]. rewrite all_known.
  rewrite as_supplied. reflexivity.
Qed.

(** The ways a run of the program can go: help or version shown; the
    command line refused; a handler that throws while building its
    handles; a handler that runs to its end. *)
Lemma main_outcomes (remote : Remote) (p : Parsed) :
  (exists a : Arg, exec remote [] (main p) = ([Stdout [a]], Normal 0%Z))
  \/ (exists why : Complaint,
        exec remote [] (main p)
        = ([Stderr [Usage]; Stderr [Failure why]], Normal 1%Z))
  \/ (help_or_version cli p = None
      /\ malformed p = false
      /\ exec remote [] (main p)
         = ([Stderr [Usage]; Stderr [Value TypeError]], Normal 1%Z))
  \/ (exists c : Command,
        In c (commands cli)
        /\ help_or_version cli p = None
        /\ malformed p = false
        /\ exec remote [] (main p)
           = (fst (exec remote [] (handler c (argv_object p))), Normal 0%Z)).
Proof.
  destruct (help_or_version cli p) as [a|] eqn:no_help.
  - (* help or version, unless a near miss of a command is refused first *)
    unfold main, argv.
    destruct (positional p) as [|first rest].
    + rewrite checked_exec, no_help. left; eauto.
    + destruct (find_command cli first).
      * unfold runCommand. rewrite checked_exec, no_help. left; eauto.
      * destruct (recommend cli && negb (flag_set p (helpOpt cli))
                  && close_to_a_command cli first);
          [right; left; eexists; reflexivity|].
        rewrite checked_exec, no_help. left; eauto.
  - destruct (malformed p) eqn:fine.
    + (* refused *)
      right; left. unfold malformed in fine. unfold main, argv.
      destruct (positional p) as [|first rest] eqn:words.
      * rewrite checked_exec, no_help.
        destruct (validation cli _ _ _ p) as [why|] eqn:checks; [eauto|].
        apply validation_passes in checks. rewrite words in checks.
        destruct checks as [_ [enough _]]. discriminate enough.
      * destruct (mem first subcommands) eqn:is_command.
        -- destruct (find_command_subcommand first is_command)
             as [c [found no_builder]].
           rewrite found. unfold runCommand. rewrite checked_exec, no_help.
           destruct (validation cli _ _ _ p) as [why|] eqn:checks; [eauto|].
           apply validation_passes in checks.
           destruct checks as [parsed [_ all_known]].
           rewrite no_builder, app_nil_r in all_known.
           apply unknown_options_none in all_known.
           rewrite parsed, all_known in fine. discriminate fine.
        -- rewrite (find_command_stranger first is_command).
           destruct (recommend cli && negb (flag_set p (helpOpt cli))
                     && close_to_a_command cli first); [eexists; reflexivity|].
           rewrite checked_exec, no_help.
           destruct (validation cli _ _ _ p) as [why|] eqn:checks; [eauto|].
           apply validation_passes in checks.
           destruct checks as [_ [_ none_unknown]].
           apply app_eq_nil in none_unknown. destruct none_unknown as [_ no_words].
           unfold unknown_words in no_words. rewrite words in no_words.
           change (map command_name (commands cli)) with subcommands in no_words.
           revert no_words. cbn -[mem subcommands]. rewrite is_command.
           discriminate.
    + (* dispatched *)
      destruct (dispatch p no_help fine)
        as [first [c [h [_ [registered [_ [as_supplied dispatched]]]]]]].
      rewrite dispatched, <- as_supplied.
      destruct (handlers_throw_or_complete c (argv_object p) registered)
        as [throws|completes].
      * right; right; left. rewrite throws. auto.
      * right; right; right. exists c. repeat split; auto.
        apply exec_invoke_completes. apply completes.
Qed.

Lemma refusal_is_usage_failure (remote : Remote) (p : Parsed) (line : list Arg) :
  exec remote [] (main p) = ([Stderr [Usage]; Stderr line], Normal 1%Z) ->
  usage_failure remote p.
Proof.
  intros H. unfold usage_failure, trace, completion. rewrite H. cbn.
  split; [auto|]. split; [|reflexivity].
  exists 1%Z. split; [reflexivity | discriminate].
Qed.

Example no_subcommand_is_refused :
  exec (obliging true) [] (main {| positional := []; named := [("instance", foo)];
                                  error := None |})
  = ([Stderr [Usage]; Stderr [Failure (NotEnoughNonOptionArguments 0 1)]], Normal 1%Z).
Proof. reflexivity. Qed.

Example unknown_flag_is_refused :
  exec (obliging true) []
       (main (command_line "del-instance" [("instance", foo); ("force", Js.Boolean true)]))
  = ([Stderr [Usage]; Stderr [Failure (UnknownArguments ["force"])]], Normal 1%Z).
Proof. reflexivity. Qed.

Example near_miss_is_refused :
  exec (obliging true) [] (main (command_line "del-instanc" [("instance", foo)]))
  = ([Stderr [Usage]; Stderr [Failure DidYouMean]], Normal 1%Z).
Proof. reflexivity. Qed.

Example unnamed_instance_is_refused :
  exec (obliging true) [] (main (command_line "del-instance" []))
  = ([Stderr [Usage]; Stderr [Value TypeError]], Normal 1%Z).
Proof. reflexivity. Qed.

(* ===================================================================== *)
(** ** Failures *)
(* ===================================================================== *)

(** C7. In every handler, whenever a call is rejected, what follows in the
    run is the report of the error, one line on standard error made of a
    fixed text and the error that was caught, and nothing else: no further
    call is issued and no other line is printed, what is left of the
    handler is abandoned.  The handler itself then ends normally, and a
    run of the program in which a call was rejected exits with code 0. *)
Theorem failures_end_the_chain (remote : Remote) :
  (forall (c : Command) (argv : Js.Val),
      In c (commands cli) ->
      (forall pre m err post,
          trace remote (handler c argv) = pre ++ Settled m (Rejected err) :: post ->
          exists prefix : string, post = [Stderr [Text [Lit prefix]; Value err]])
      /\ (rejected (trace remote (handler c argv)) <> [] ->
          completion remote (handler c argv) = Normal tt))
  /\ (forall p : Parsed,
        rejected (trace remote (main p)) <> [] ->
        completion remote (main p) = Normal 0%Z).
Proof.
  split.
  - intros c argv registered. split.
    + intros pre m err post split_at.
      exact (fail_stop_split _ (handlers_fail_stop c argv remote [] registered)
                             _ _ _ _ split_at).
    + intros some_rejected. unfold completion.
      destruct (handlers_throw_or_complete c argv registered) as [throws|completes];
        [|apply completes].
      unfold trace in some_rejected. rewrite throws in some_rejected.
      contradiction some_rejected. reflexivity.
  - intros p some_rejected. unfold trace in some_rejected. unfold completion.
    destruct (main_outcomes remote p)
      as [[a E]|[[why E]|[[_ [_ E]]|[c [_ [_ [_ E]]]]]]];
      rewrite E in *; try reflexivity;
      contradiction some_rejected; reflexivity.
Qed.

Lemma failures_end_the_chain_witness :
  let remote := failing_at ListInstances false in
  let p := command_line "run" [("instance", foo); ("cluster", bar)] in
  rejected (trace remote (main p)) = [(ListInstances, Js.Str "UNAVAILABLE")]
  /\ completion remote (main p) = Normal 0%Z
  /\ exists prefix : string,
       skipn 11 (trace remote (Samples.runInstanceOperations foo bar))
       = [Stderr [Text [Lit prefix]; Value (Js.Str "UNAVAILABLE")]].
Proof.
  intros remote p.
  destruct (failures_end_the_chain remote) as [handlers exits].
  split; [reflexivity|]. split.
  - apply exits. cbn. discriminate.
  - pose proof (find_some _ _ (eq_refl : find_command cli "run" = Some _))
      as [registered _].
    destruct (handlers _ (argv_object p) registered) as [stops _].
    exact (stops (firstn 10 (trace remote (Samples.runInstanceOperations foo bar)))
                 getInstances (Js.Str "UNAVAILABLE")
                 (skipn 11 (trace remote (Samples.runInstanceOperations foo bar)))
                 eq_refl).
Defined.

(* ===================================================================== *)
(** ** Arguments left out *)
(* ===================================================================== *)

(** The cluster name goes into the calls as it was given. *)
Lemma cluster_names_as_given (remote : Remote) (past : list Method)
    (i n : Js.Val) (body : Async unit) :
  body = Samples.runInstanceOperations i n
  \/ body = Samples.createDevInstance i n
  \/ body = Samples.deleteInstance i
  \/ body = Samples.addCluster i n
  \/ body = Samples.deleteCluster i n ->
  Forall (eq n) (cluster_names (fst (exec remote past body))).
Proof.
  unfold cluster_names, instance_creations, cluster_creations.
  intros [->|[->|[->|[->| ->]]]];
    unfold Samples.runInstanceOperations, Samples.createDevInstance,
      Samples.deleteInstance, Samples.addCluster, Samples.deleteCluster;
    step_through remote; read_trace; repeat constructor.
Qed.

(** C1, as stated, fails for three of the five subcommands.  With
    [--instance] given and [--cluster] left out, [run], [dev-instance] and
    [add-cluster] are not refused: nothing goes to standard error, a call
    of the client is issued and the exit code is 0. *)
Lemma missing_cluster_not_refused :
  Forall (fun cmd : string =>
            let p := command_line cmd [("instance", foo)] in
            In "cluster" (required_arguments cmd)
            /\ Js.lookup "cluster" (named p) = None
            /\ ~ usage_failure (obliging true) p
            /\ stderr (trace (obliging true) (main p)) = []
            /\ calls (trace (obliging true) (main p)) <> []
            /\ completion (obliging true) (main p) = Normal 0%Z)
         [ "run"; "dev-instance"; "add-cluster" ].
Proof.
  repeat apply Forall_cons; try apply Forall_nil;
    (split; [right; left; reflexivity|]);
    (split; [reflexivity|]);
    (split; [intros [_ [_ no_calls]]; discriminate no_calls|]);
    (split; [reflexivity|]);
    (split; [discriminate | reflexivity]).
Qed.

(** C1, amended.  On a command line with nothing else wrong with it, a
    missing [--instance] causes usage text on standard error, a non-zero
    exit and no call of the client for [run], [del-instance], [add-cluster]
    and [del-cluster], and so does a missing [--cluster] for [del-cluster].
    A missing [--cluster], with [--instance] given, does not for [run],
    [dev-instance] and [add-cluster]: the handler runs, a call is issued
    and the exit code is 0. *)
Theorem missing_argument_refused_or_not (remote : Remote) (p : Parsed) (first : string) :
  help_or_version cli p = None ->
  malformed p = false ->
  hd_error (positional p) = Some first ->
  ((In first ["run"; "del-instance"; "add-cluster"; "del-cluster"]
    /\ Js.lookup "instance" (named p) = None)
   \/ (first = "del-cluster" /\ Js.lookup "cluster" (named p) = None) ->
   usage_failure remote p)
  /\ (In first ["run"; "dev-instance"; "add-cluster"] ->
      is_name (supplied "instance" p) = true ->
      Js.lookup "cluster" (named p) = None ->
      ~ usage_failure remote p
      /\ calls (trace remote (main p)) <> []
      /\ completion remote (main p) = Normal 0%Z).
Proof.
  intros no_help fine is_first.
  destruct (dispatch p no_help fine)
    as [first' [c [h [is_first' [registered [wired [as_supplied dispatched]]]]]]].
  rewrite is_first in is_first'. injection is_first' as <-.
  split.
  - (* a handle cannot be built *)
    intros missing.
    apply (refusal_is_usage_failure remote p [Value TypeError]).
    rewrite dispatched. rewrite <- (exec_invoke_throws TypeError remote []).
    f_equal. f_equal.
    unfold supplied. cbn in wired.
    destruct missing as [[which omitted]|[-> omitted]]; rewrite ?omitted.
    + cbn in which.
      destruct which as [<-|[<-|[<-|[<-|[]]]]];
        destruct wired as [E|[E|[E|[E|[E|[]]]]]]; inversion E; subst; reflexivity.
    + destruct wired as [E|[E|[E|[E|[E|[]]]]]]; inversion E; subst.
      unfold Entry.deleteCluster, bigtable_instance, instance_cluster.
      destruct (Js.lookup "instance" (named p)) as [[]|]; reflexivity.
  - (* the handler runs *)
    intros which named_instance omitted.
    assert (runs : exists body : Async unit,
               h (supplied "instance" p) (supplied "cluster" p) = body
               /\ (forall past, snd (exec remote past body) = Normal tt)
               /\ calls (fst (exec remote [] body)) <> []).
    { destruct (supplied "instance" p) as [|s| | | |] eqn:given;
        try discriminate named_instance.
      cbn in wired, which.
      destruct which as [<-|[<-|[<-|[]]]];
        destruct wired as [E|[E|[E|[E|[E|[]]]]]]; inversion E; subst;
        eexists; (split; [reflexivity|]); split.
      - intros past. apply runInstanceOperations_fail_stop.
      - cbn. discriminate.
      - intros past. apply createDevInstance_fail_stop.
      - cbn. discriminate.
      - intros past. apply addCluster_fail_stop.
      - cbn. discriminate. }
    destruct runs as [body [is_body [completes calls_something]]].
    assert (ran : exec remote [] (main p) = (fst (exec remote [] body), Normal 0%Z)).
    { rewrite dispatched, is_body. apply exec_invoke_completes, completes. }
    unfold usage_failure, trace, completion. rewrite ran. cbn.
    repeat split; auto.
    intros [_ [[code [ends nonzero]] _]]. congruence.
Qed.

Lemma missing_argument_refused_or_not_witness :
  let without_instance := command_line "del-instance" [] in
  let without_cluster := command_line "run" [("instance", foo)] in
  usage_failure (obliging true) without_instance
  /\ ~ usage_failure (obliging true) without_cluster
  /\ calls (trace (obliging true) (main without_cluster)) <> [].
Proof.
  intros without_instance without_cluster.
  split.
  - apply (proj1 (missing_argument_refused_or_not (obliging true) without_instance
                    "del-instance" eq_refl eq_refl eq_refl)).
    left. split; [right; left; reflexivity | reflexivity].
  - destruct (proj2 (missing_argument_refused_or_not (obliging true) without_cluster
                       "run" eq_refl eq_refl eq_refl)) as [passes [called _]].
    + left. reflexivity.
    + reflexivity.
    + reflexivity.
    + split; assumption.
Defined.

(** C10, as stated, fails.  [del-instance] without [--instance], and
    [del-cluster] without [--cluster], are dispatched with [undefined] for
    what was left out, but the handler then issues no call at all: it
    stops where it builds its handle, and the run ends as a usage
    failure. *)
Lemma handler_stops_at_the_handle :
  let without_instance := command_line "del-instance" [] in
  let without_cluster := command_line "del-cluster" [("instance", foo)] in
  (malformed without_instance = false
   /\ supplied "instance" without_instance = Js.Undefined
   /\ main without_instance = invoke (Entry.deleteInstance Js.Undefined)
   /\ calls (trace (obliging true) (main without_instance)) = []
   /\ usage_failure (obliging true) without_instance)
  /\ (malformed without_cluster = false
      /\ supplied "cluster" without_cluster = Js.Undefined
      /\ main without_cluster = invoke (Entry.deleteCluster foo Js.Undefined)
      /\ calls (trace (obliging true) (main without_cluster)) = []
      /\ usage_failure (obliging true) without_cluster).
Proof.
  assert (refused : forall p : Parsed,
             exec (obliging true) [] (main p)
             = ([Stderr [Usage]; Stderr [Value TypeError]], Normal 1%Z) ->
             calls (trace (obliging true) (main p)) = []
             /\ usage_failure (obliging true) p).
  { intros p E. split.
    - unfold trace. rewrite E. reflexivity.
    - exact (refusal_is_usage_failure _ p _ E). }
  split; (split; [reflexivity|]); (split; [reflexivity|]);
    (split; [reflexivity|]); apply refused; reflexivity.
Qed.

(** C10, amended.  A command line that names one of the five subcommands
    and has nothing else wrong with it is dispatched to that subcommand's
    function whether or not [--instance] and [--cluster] are given, and the
    function is passed [undefined] for an option that was left out.  The
    cluster name goes into the calls as passed: every cluster entry of
    create options and every create-cluster call carries it, [undefined]
    when it was left out; in particular [dev-instance] issues one
    createInstance call whose single cluster entry has that name.  With
    the instance named, [run] and [add-cluster] start with the existence
    check of that instance and the exit code is 0.  With [--instance] left
    out no call is issued, except by [dev-instance], and [del-cluster]
    without [--cluster] issues none either. *)
Theorem handlers_invoked_as_supplied (remote : Remote) (p : Parsed) :
  help_or_version cli p = None ->
  malformed p = false ->
  let t := trace remote (main p) in
  (exists (first : string) (h : Js.Val -> Js.Val -> Async unit),
      hd_error (positional p) = Some first
      /\ In (first, h) wiring
      /\ main p = invoke (h (supplied "instance" p) (supplied "cluster" p)))
  /\ (forall key : string,
        Js.lookup key (named p) = None -> supplied key p = Js.Undefined)
  /\ Forall (eq (supplied "cluster" p)) (cluster_names t)
  /\ (hd_error (positional p) = Some "dev-instance" ->
      exists options entry : Js.Val,
        calls t = [createInstance (supplied "instance" p) options]
        /\ cluster_entries options = [entry]
        /\ Js.prop "name" entry = supplied "cluster" p)
  /\ (is_name (supplied "instance" p) = true ->
      hd_error (positional p) = Some "run"
      \/ hd_error (positional p) = Some "add-cluster" ->
      hd_error (calls t) = Some (exists_ (instance (supplied "instance" p)))
      /\ completion remote (main p) = Normal 0%Z)
  /\ (Js.lookup "instance" (named p) = None ->
      hd_error (positional p) <> Some "dev-instance" ->
      calls t = [])
  /\ (hd_error (positional p) = Some "del-cluster" ->
      Js.lookup "cluster" (named p) = None ->
      calls t = []).
Proof.
  intros no_help fine t. subst t.
  destruct (dispatch p no_help fine)
    as [first [c [h [is_first [registered [wired [as_supplied dispatched]]]]]]].
  split; [exists first, h; auto|].
  split; [intros key omitted; unfold supplied; rewrite omitted; reflexivity|].
  assert (outcome :
            exec remote [] (main p)
              = ([Stderr [Usage]; Stderr [Value TypeError]], Normal 1%Z)
              /\ handler c (argv_object p) = Throw TypeError
            \/ exec remote [] (main p)
               = (fst (exec remote [] (handler c (argv_object p))), Normal 0%Z)).
  { rewrite dispatched, <- as_supplied.
    destruct (handlers_throw_or_complete c (argv_object p) registered)
      as [throws|completes].
    - left. rewrite throws. auto.
    - right. apply exec_invoke_completes, completes. }
  assert (stops : handler c (argv_object p) = Throw TypeError ->
                  calls (trace remote (main p)) = []).
  { intros throws. unfold trace. rewrite dispatched, <- as_supplied, throws.
    reflexivity. }
  split; [|split; [|split; [|split]]].
  - (* cluster names *)
    unfold trace. destruct outcome as [[E _]|E]; rewrite E; [constructor|].
    cbn [fst].
    destruct (registered_handler c (argv_object p) registered)
      as [E'|bodies]; [rewrite E'; constructor|].
    change (Js.prop "cluster" (argv_object p)) with (supplied "cluster" p) in bodies.
    apply (cluster_names_as_given remote [] (Js.prop "instance" (argv_object p))).
    exact bodies.
  - (* dev-instance *)
    intros is_dev. rewrite is_first in is_dev. injection is_dev as ->.
    cbn in wired.
    destruct wired as [E|[E|[E|[E|[E|[]]]]]]; inversion E; subst; clear E.
    unfold trace. rewrite dispatched.
    rewrite exec_invoke_completes by apply createDevInstance_fail_stop.
    cbn [fst]. do 2 eexists.
    unfold Entry.createDevInstance, Samples.createDevInstance.
    step_through remote; repeat split; reflexivity.
  - (* run and add-cluster on a named instance *)
    intros named_instance which.
    rewrite is_first in which.
    destruct (supplied "instance" p) as [|s| | | |] eqn:given;
      try discriminate named_instance.
    cbn in wired. unfold trace, completion. rewrite dispatched.
    destruct which as [which|which]; injection which as ->;
      destruct wired as [E|[E|[E|[E|[E|[]]]]]]; inversion E; subst; clear E.
    + rewrite exec_invoke_completes by apply runInstanceOperations_fail_stop.
      split; reflexivity.
    + rewrite exec_invoke_completes by apply addCluster_fail_stop.
      split; reflexivity.
  - (* no instance *)
    intros omitted not_dev. apply stops. rewrite as_supplied.
    unfold supplied. rewrite omitted. cbn in wired.
    destruct wired as [E|[E|[E|[E|[E|[]]]]]]; inversion E; subst; clear E;
      try reflexivity.
    contradiction not_dev.
  - (* del-cluster without a cluster *)
    intros is_del omitted. rewrite is_first in is_del. injection is_del as ->.
    apply stops. rewrite as_supplied.
    unfold supplied at 2. rewrite omitted. cbn in wired.
    destruct wired as [E|[E|[E|[E|[E|[]]]]]]; inversion E; subst; clear E.
    unfold Entry.deleteCluster, bigtable_instance, instance_cluster.
    destruct (supplied "instance" p); reflexivity.
Qed.

Lemma handlers_invoked_as_supplied_witness :
  let p := command_line "dev-instance" [("instance", foo)] in
  help_or_version cli p = None
  /\ malformed p = false
  /\ supplied "cluster" p = Js.Undefined
  /\ exists options entry : Js.Val,
       calls (trace (obliging false) (main p)) = [createInstance foo options]
       /\ cluster_entries options = [entry]
       /\ Js.prop "name" entry = Js.Undefined.
Proof.
  intros p.
  destruct (handlers_invoked_as_supplied (obliging false) p eq_refl eq_refl)
    as [_ [_ [_ [dev _]]]].
  repeat split. exact (dev eq_refl).
Defined.

(** C8, at the input where the code departs from it.  When the
    list-clusters call of [run] is rejected, the one line on standard
    error starts with "Error creating cluster:", the very text [add-cluster]
    uses when its create-cluster call is rejected; the text does not tell
    the two operations apart. *)
Theorem list_clusters_failure_reported_as_creation :
  let listing := trace (failing_at ListClusters true)
                       (Samples.runInstanceOperations foo bar) in
  let adding := trace (failing_at CreateCluster true)
                      (Samples.addCluster foo bar) in
  rejected listing = [(ListClusters, Js.Str "UNAVAILABLE")]
  /\ stderr listing
     = [[Text [Lit "Error creating cluster:"]; Value (Js.Str "UNAVAILABLE")]]
  /\ rejected adding = [(CreateCluster, Js.Str "UNAVAILABLE")]
  /\ stderr adding = stderr listing.
Proof. repeat split. Qed.

(* ===================================================================== *)
(** ** More about the handlers *)
(* ===================================================================== *)

Lemma rejected_calls_logs (lines : list Arg) (t : Trace) :
  rejected_calls (map (fun line => Stdout [line]) lines ++ t) = rejected_calls t.
Proof. induction lines; cbn; auto. Qed.

Lemma stdout_logs (lines : list Arg) (t : Trace) :
  stdout (map (fun line => Stdout [line]) lines ++ t)
  = map (fun line => [line]) lines ++ stdout t.
Proof. induction lines as [|line lines IH]; cbn; [|rewrite IH]; reflexivity. Qed.

Ltac read_run :=
  repeat (cbn; rewrite ?calls_logs, ?stderr_logs, ?rejected_logs,
            ?rejected_calls_logs, ?stdout_logs).


(** X2. [run], [dev-instance] and [add-cluster] never issue a delete, of an
    instance or of a cluster; [del-instance] and [del-cluster] never issue
    a call that creates anything. *)
Theorem handlers_keep_to_their_kind (remote : Remote) (instanceName clusterName : Js.Val) :
  existsb deletes
    (calls (trace remote (Samples.runInstanceOperations instanceName clusterName)))
    = false
  /\ existsb deletes
       (calls (trace remote (Samples.createDevInstance instanceName clusterName)))
       = false
  /\ existsb deletes
       (calls (trace remote (Samples.addCluster instanceName clusterName)))
       = false
  /\ existsb creates
       (calls (trace remote (Samples.deleteInstance instanceName)))
       = false
  /\ existsb creates
       (calls (trace remote (Samples.deleteCluster instanceName clusterName)))
       = false.
Proof.
  unfold trace, Samples.runInstanceOperations, Samples.createDevInstance,
    Samples.addCluster, Samples.deleteInstance, Samples.deleteCluster.
  repeat split; step_through remote; read_run; reflexivity.
Qed.

(** Each handler reports what was rejected, once. *)
Lemma runInstanceOperations_one_report (remote : Remote) (past : list Method)
    (instanceName clusterName : Js.Val) :
  one_report (fst (exec remote past
                     (Samples.runInstanceOperations instanceName clusterName))).
Proof.
  unfold one_report, Samples.runInstanceOperations.
  step_through remote; read_run; eauto.
Qed.

Lemma createDevInstance_one_report (remote : Remote) (past : list Method)
    (instanceName clusterName : Js.Val) :
  one_report (fst (exec remote past
                     (Samples.createDevInstance instanceName clusterName))).
Proof.
  unfold one_report, Samples.createDevInstance.
  step_through remote; read_run; eauto.
Qed.

Lemma deleteInstance_one_report (remote : Remote) (past : list Method)
    (instanceName : Js.Val) :
  one_report (fst (exec remote past (Samples.deleteInstance instanceName))).
Proof.
  unfold one_report, Samples.deleteInstance.
  step_through remote; read_run; eauto.
Qed.

Lemma addCluster_one_report (remote : Remote) (past : list Method)
    (instanceName clusterName : Js.Val) :
  one_report (fst (exec remote past (Samples.addCluster instanceName clusterName))).
Proof.
  unfold one_report, Samples.addCluster.
  step_through remote; read_run; eauto.
Qed.

Lemma deleteCluster_one_report (remote : Remote) (past : list Method)
    (instanceName clusterName : Js.Val) :
  one_report (fst (exec remote past (Samples.deleteCluster instanceName clusterName))).
Proof.
  unfold one_report, Samples.deleteCluster.
  step_through remote; read_run; eauto.
Qed.

Lemma handlers_one_report (c : Command) (argv : Js.Val) (remote : Remote)
    (past : list Method) :
  In c (commands cli) -> one_report (fst (exec remote past (handler c argv))).
Proof.
  intros registered.
  destruct (registered_handler c argv registered) as [E|[E|[E|[E|[E|E]]]]];
    rewrite E.
  - reflexivity.
  - apply runInstanceOperations_one_report.
  - apply createDevInstance_one_report.
  - apply deleteInstance_one_report.
  - apply addCluster_one_report.
  - apply deleteCluster_one_report.
Qed.

(** X3. In a run of any of the five handlers at most one call is rejected.
    When none is, nothing is written to standard error; when one is,
    exactly one line is written there, made of a fixed text and the error
    that was caught, and for every call but [getClusters] the text is the
    one that names the call. *)
Theorem handlers_report_once (c : Command) (argv : Js.Val) (remote : Remote) :
  In c (commands cli) ->
  let t := trace remote (handler c argv) in
  match rejected_calls t with
  | [] => stderr t = []
  | [(m, err)] =>
      match error_text m with
      | Some text => stderr t = [[Text [Lit text]; Value err]]
      | None => exists text : string, stderr t = [[Text [Lit text]; Value err]]
      end
  | _ :: _ :: _ => False
  end.
Proof. intros registered. exact (handlers_one_report c argv remote [] registered). Qed.

Lemma handlers_report_once_witness :
  let remote := failing_at GetInstance true in
  let t := trace remote (Samples.runInstanceOperations foo bar) in
  rejected_calls t = [(get (instance foo), Js.Str "UNAVAILABLE")]
  /\ stderr t = [[Text [Lit "Error getting instance:"]; Value (Js.Str "UNAVAILABLE")]].
Proof.
  intros remote t.
  pose proof (find_some _ _ (eq_refl : find_command cli "run" = Some _))
    as [registered _].
  pose proof (handlers_report_once _
                (argv_object (command_line "run" [("instance", foo); ("cluster", bar)]))
                remote registered) as once.
  split; [reflexivity | exact once].
Defined.

(** X4. [del-instance] prints its "Instance deleted" line, and
    [del-cluster] its "Cluster deleted" line, exactly when the delete call
    was not rejected. *)
Theorem deleted_line_means_deleted (remote : Remote) (instanceName clusterName : Js.Val) :
  let i := instance instanceName in
  let c := cluster i clusterName in
  (In [Text [Lit "Instance deleted: "; SubName i]]
      (stdout (trace remote (Samples.deleteInstance instanceName)))
   <-> rejected (trace remote (Samples.deleteInstance instanceName)) = [])
  /\ (In [Text [Lit "Cluster deleted: "; SubId c]]
         (stdout (trace remote (Samples.deleteCluster instanceName clusterName)))
      <-> rejected (trace remote (Samples.deleteCluster instanceName clusterName)) = []).
Proof.
  unfold trace, Samples.deleteInstance, Samples.deleteCluster.
  split; step_through remote; read_run;
    (split; [intros H | intros H; try discriminate H; auto]);
    try reflexivity;
    repeat (destruct H as [H|H]; try discriminate H); contradiction.
Qed.

Lemma deleted_line_means_deleted_witness :
  In [Text [Lit "Instance deleted: "; SubName (instance foo)]]
     (stdout (trace (obliging true) (Samples.deleteInstance foo)))
  /\ ~ In [Text [Lit "Cluster deleted: "; SubId (cluster (instance foo) bar)]]
         (stdout (trace (failing_at DeleteCluster true)
                        (Samples.deleteCluster foo bar))).
Proof.
  split.
  - apply (proj1 (deleted_line_means_deleted (obliging true) foo bar)).
    reflexivity.
  - intros printed.
    apply (proj2 (deleted_line_means_deleted (failing_at DeleteCluster true) foo bar))
      in printed.
    discriminate printed.
Defined.


(** Every call a handler issues is about the instance it was given. *)
Lemma handlers_about_their_instance (c : Command) (argv : Js.Val) (remote : Remote)
    (past : list Method) :
  In c (commands cli) ->
  Forall (about (Js.prop "instance" argv))
         (calls (fst (exec remote past (handler c argv)))).
Proof.
  intros registered.
  destruct (registered_handler c argv registered) as [E|[E|[E|[E|[E|E]]]]];
    rewrite E;
    unfold Samples.runInstanceOperations, Samples.createDevInstance,
      Samples.deleteInstance, Samples.addCluster, Samples.deleteCluster;
    step_through remote; read_run;
    repeat first [apply Forall_nil | apply Forall_cons];
    unfold about; cbn; auto.
Qed.

(** X6. Whatever the service answers, every call one of the five handlers
    issues is either the listing of all instances or a call about the
    instance named by [argv.instance]: no other instance is ever asked
    about, created, or deleted. *)
Theorem handlers_touch_only_their_instance (c : Command) (argv : Js.Val)
    (remote : Remote) :
  In c (commands cli) ->
  Forall (fun m => m = getInstances
                   \/ instance_named m = Some (Js.prop "instance" argv))
         (calls (trace remote (handler c argv))).
Proof.
  intros registered.
  pose proof (handlers_about_their_instance c argv remote [] registered) as H.
  unfold trace. induction H as [|m l [none|same] _ IH]; constructor; auto.
  left. destruct m; try discriminate none. reflexivity.
Qed.

Lemma handlers_touch_only_their_instance_witness :
  let p := command_line "del-cluster" [("instance", foo); ("cluster", bar)] in
  Forall (fun m => m = getInstances \/ instance_named m = Some foo)
         (calls (trace (obliging true) (Samples.deleteCluster foo bar))).
Proof.
  intros p.
  pose proof (find_some _ _ (eq_refl : find_command cli "del-cluster" = Some _))
    as [registered _].
  exact (handlers_touch_only_their_instance _ (argv_object p) (obliging true) registered).
Defined.

(** X7. When the instance is there and the four calls of [run] succeed,
    standard output is, in order: the two opening lines, the heading of
    the listing, one line per instance the service listed (its name, in
    the order listed), the name and the metadata of the instance fetched,
    and one line per cluster the service listed (its id, in the order
    listed).  Each answer is the one given to the call with the earlier
    calls of the run behind it. *)
Theorem run_prints_what_it_is_told (remote : Remote) (instanceName clusterName : Js.Val)
    (instances : list Instance) (found : Instance) (clusters : list Cluster) :
  let i := instance instanceName in
  remote [] (exists_ i) = inl true ->
  remote [exists_ i] getInstances = inl instances ->
  remote [exists_ i; getInstances] (get i) = inl found ->
  remote [exists_ i; getInstances; get i] (getClusters i) = inl clusters ->
  stdout (trace remote (Samples.runInstanceOperations instanceName clusterName))
  = [ [Text [Lit "Check Instance Exists"]];
      [Text [Lit "Instance "; SubName i; Lit " exists"]];
      [];
      [Text [Lit "Listing Instances:"]] ]
    ++ map (fun x => [Value (name x)]) instances
    ++ [ [];
         [Text [Lit "Get Instance"]];
         [Text [Lit "Instance Name: "; Sub (name found)]];
         [Text [Lit "Instance Meta: "; SubJSON (metadata found)]];
         [];
         [Text [Lit "Listing Clusters..."]] ]
    ++ map (fun x => [Value (id x)]) clusters.
Proof.
  intros i there listed fetched clustered. subst i.
  unfold trace, Samples.runInstanceOperations. cbn.
  rewrite there. cbn. rewrite listed. cbn. float_logs.
  rewrite fetched. cbn. rewrite clustered. cbn. float_logs. read_run.
  rewrite !map_map, app_nil_r. reflexivity.
Qed.

Lemma run_prints_what_it_is_told_witness :
  length (stdout (trace (obliging true) (Samples.runInstanceOperations foo bar)))
  = 12%nat.
Proof.
  rewrite (run_prints_what_it_is_told (obliging true) foo bar
             [an_instance "projects/p/instances/foo"]
             (an_instance "projects/p/instances/foo")
             [a_cluster "projects/p/instances/foo/clusters/bar"]
             eq_refl eq_refl eq_refl eq_refl).
  reflexivity.
Defined.

(* ===================================================================== *)
(** ** More about the program as a whole *)
(* ===================================================================== *)

Lemma handlers_never_print_usage (c : Command) (argv : Js.Val) (remote : Remote)
    (past : list Method) :
  In c (commands cli) ->
  ~ In [Usage] (stderr (fst (exec remote past (handler c argv)))).
Proof.
  intros registered.
  pose proof (handlers_one_report c argv remote past registered) as once.
  unfold one_report in once.
  destruct (rejected_calls _) as [|[m err] [|]]; [| |contradiction].
  - rewrite once. intros [].
  - destruct (error_text m); [|destruct once as [text once]];
      rewrite once; intros [H|[]]; discriminate H.
Qed.

(** X8. The program reaches the client only from a command line that has
    nothing wrong with it: if any call is issued, then the first word is
    one of the five subcommands, every option is a known flag with its
    value, and neither [--help] nor [--version] is set. *)
Theorem calls_only_when_well_formed (remote : Remote) (p : Parsed) :
  calls (trace remote (main p)) <> [] ->
  malformed p = false /\ help_or_version cli p = None.
Proof.
  intros some. unfold trace in some.
  destruct (main_outcomes remote p)
    as [[a E]|[[why E]|[[_ [_ E]]|[c [_ [no_help [fine _]]]]]]];
    [rewrite E in some; contradiction some; reflexivity .. | auto].
Qed.

Lemma calls_only_when_well_formed_witness :
  let p := command_line "add-cluster" [("instance", foo); ("cluster", bar)] in
  calls (trace (obliging false) (main p)) = [exists_ (instance foo)]
  /\ malformed p = false /\ help_or_version cli p = None.
Proof.
  intros p. split; [reflexivity|].
  apply (calls_only_when_well_formed (obliging false) p). discriminate.
Defined.

(** X9. Whatever the command line and whatever the service answers, the
    program ends with exit code 0 or 1; the exit code is 1 exactly when
    the usage text was written to standard error, and then no call was
    issued.  A handler that throws while building its handles ends the run
    that way; a rejected call never does. *)
Theorem exit_code_is_usage_failure (remote : Remote) (p : Parsed) :
  (completion remote (main p) = Normal 0%Z \/ completion remote (main p) = Normal 1%Z)
  /\ (completion remote (main p) = Normal 1%Z
      <-> In [Usage] (stderr (trace remote (main p))))
  /\ (completion remote (main p) = Normal 1%Z -> calls (trace remote (main p)) = []).
Proof.
  unfold completion, trace.
  destruct (main_outcomes remote p)
    as [[a E]|[[why E]|[[_ [_ E]]|[c [registered [_ [_ E]]]]]]];
    rewrite E; cbn.
  - split; [auto|]. split; [|discriminate].
    split; [discriminate | intros []].
  - split; [auto|]. split; [|reflexivity].
    split; [auto | reflexivity].
  - split; [auto|]. split; [|reflexivity].
    split; [auto | reflexivity].
  - split; [auto|]. split; [|discriminate].
    split; [discriminate|].
    intros H. exfalso.
    exact (handlers_never_print_usage c (argv_object p) remote [] registered H).
Qed.

Lemma exit_code_is_usage_failure_witness :
  let p := command_line "del-cluster" [("instance", foo)] in
  In [Usage] (stderr (trace (obliging false) (main p)))
  /\ completion (obliging false) (main p) = Normal 1%Z
  /\ calls (trace (obliging false) (main p)) = [].
Proof.
  intros p.
  destruct (exit_code_is_usage_failure (obliging false) p) as [_ [usage none]].
  assert (written : In [Usage] (stderr (trace (obliging false) (main p))))
    by (left; reflexivity).
  split; [exact written|].
  split; [exact (proj2 usage written) | exact (none (proj2 usage written))].
Defined.
